(** * Vertex AI SDK: dataset controller, container URI resolver and
      dataframe serializer

    A shallow embedding of
      - google/cloud/aiplatform/helpers/container_uri_builders.py
      - google/cloud/aiplatform/datasets/dataset.py
      - google/cloud/aiplatform/experimental/vertex_model/serializers/pandas.py

    Python strings are modelled as byte strings ([string]); [str.lower] is
    modelled on the ASCII letters, every other byte being left as it is.
    A Python [dict] with string keys is an association list in insertion
    order (the order [keys()] enumerates), looked up by first match. *)

From Stdlib Require Import String Ascii List Bool Arith Lia.
Import ListNotations.
Open Scope string_scope.

(** ** Exceptions and results *)

Inductive exn : Type :=
| ValueError (msg : string)
| NameError (msg : string)
| AttributeError (msg : string)
| FileNotFoundError (msg : string)
| NotImplementedError (msg : string)
| RemoteError (msg : string).

Inductive result (A : Type) : Type :=
| Ok (a : A)
| Raise (e : exn).
Arguments Ok {A} a.
Arguments Raise {A} e.

Definition is_value_error {A} (r : result A) : bool :=
  match r with
  | Raise (ValueError _) => true
  | _ => false
  end.

(** ** Python built-ins used by the sources *)

Module Py.

(** [bool(s)] for a [str]. *)
Definition truthy_str (s : string) : bool :=
  match s with
  | EmptyString => false
  | String _ _ => true
  end.

(** [bool(d)] for a [dict], a [list] or a [tuple]. *)
Definition truthy_list {A} (l : list A) : bool :=
  match l with
  | [] => false
  | _ :: _ => true
  end.

(** [a or b] where [a : Optional[str]] and [b : str]. *)
Definition or_str (a : option string) (b : string) : string :=
  match a with
  | Some s => if truthy_str s then s else b
  | None => b
  end.

(** [s.split("-", 1)[0]]: what precedes the first hyphen, the whole
    string when there is none. *)
Fixpoint split_first (sep : ascii) (s : string) : string :=
  match s with
  | EmptyString => EmptyString
  | String c rest =>
      if Ascii.eqb c sep then EmptyString
      else String c (split_first sep rest)
  end.

Definition lower_ascii (c : ascii) : ascii :=
  let n := nat_of_ascii c in
  if Nat.leb 65 n && Nat.leb n 90 then ascii_of_nat (n + 32) else c.

(** [s.lower()]. *)
Fixpoint lower (s : string) : string :=
  match s with
  | EmptyString => EmptyString
  | String c rest => String (lower_ascii c) (lower rest)
  end.

(** [sep.join(l)]. *)
Definition join (sep : string) (l : list string) : string :=
  String.concat sep l.

(** [x in t] for a tuple of strings. *)
Definition contains (t : list string) (x : string) : bool :=
  existsb (String.eqb x) t.

(** [s.startswith(p)]. *)
Definition startswith (p s : string) : bool := String.prefix p s.

(** [s.endswith("/")] on the last character. *)
Fixpoint ends_with_char (c : ascii) (s : string) : bool :=
  match s with
  | EmptyString => false
  | String d EmptyString => Ascii.eqb d c
  | String _ rest => ends_with_char c rest
  end.

(** A [dict] keyed by strings, in insertion order. *)
Definition dict (V : Type) : Type := list (string * V).

(** [d.get(k)]. *)
Fixpoint get {V} (d : dict V) (k : string) : option V :=
  match d with
  | [] => None
  | (k', v) :: rest => if String.eqb k k' then Some v else get rest k
  end.

(** [d.keys()]. *)
Definition keys {V} (d : dict V) : list string := map fst d.

End Py.

(** ** helpers/container_uri_builders.py *)

Module ContainerUri.

(** [region -> framework -> accelerator -> version -> URI]. *)
Definition versions := Py.dict string.
Definition accelerators := Py.dict versions.
Definition frameworks := Py.dict accelerators.
Definition uri_map := Py.dict frameworks.

Section Resolver.

(** [prediction._SERVING_CONTAINER_URI_MAP],
    [prediction._SERVING_CONTAINER_DOCUMENTATION_URL] and
    [initializer.global_config.location] are defined outside the
    three embedded files; they are parameters of the resolver. *)
Variable URI_MAP : uri_map.
Variable DOCUMENTATION_URL : string.
Variable location : string.

Definition DOCS_URI_MESSAGE : string :=
  "See " ++ DOCUMENTATION_URL ++ " " ++
  "for complete list of supported containers".

Definition region_error (region : string) : exn :=
  ValueError
    ("Unsupported container region `" ++ region ++
     "`, supported regions are " ++
     Py.join ", " (Py.keys URI_MAP) ++ ". " ++
     DOCS_URI_MESSAGE).

Definition framework_error (framework : string) (fm : frameworks)
  : exn :=
  ValueError
    ("No containers found for framework `" ++ framework ++
     "`. Supported frameworks are " ++
     Py.join ", " (Py.keys fm) ++ " " ++ DOCS_URI_MESSAGE).

Definition accelerator_error (framework accelerator : string)
    (am : accelerators) : exn :=
  ValueError
    (framework ++ " containers do not support `" ++ accelerator ++
     "` accelerator. Supported accelerators " ++
     "are " ++ Py.join ", " (Py.keys am) ++ ". " ++ DOCS_URI_MESSAGE).

Definition version_error (framework framework_version accelerator
    : string) (vm : versions) : exn :=
  ValueError
    ("No serving container for `" ++ framework ++ "` version `" ++
     framework_version ++ "` " ++
     "with accelerator `" ++ accelerator ++
     "` found. Supported versions " ++
     "include " ++ Py.join ", " (Py.keys vm) ++ ". " ++
     DOCS_URI_MESSAGE).

(** The two normalisations at the head of the function. *)
Definition normalize_region (region : option string) : string :=
  Py.split_first "-" (Py.or_str region location).

Definition normalize_framework (framework : string) : string :=
  Py.lower framework.

(** [get_prebuilt_prediction_container_uri]. Each [if not d.get(k)]
    is a match on the looked-up value: absent and falsy take the
    raising branch, and the later [d[k]] is the value found. *)
Definition get_prebuilt_prediction_container_uri
    (framework framework_version : string) (region : option string)
    (accelerator : string) : result string :=
  let region := normalize_region region in
  let framework := normalize_framework framework in
  match Py.get URI_MAP region with
  | None | Some [] => Raise (region_error region)
  | Some fm =>
      match Py.get fm framework with
      | None | Some [] => Raise (framework_error framework fm)
      | Some am =>
          match Py.get am accelerator with
          | None | Some [] =>
              Raise (accelerator_error framework accelerator am)
          | Some vm =>
              match Py.get vm framework_version with
              | None | Some EmptyString =>
                  Raise (version_error framework framework_version
                           accelerator vm)
              | Some final_uri => Ok final_uri
              end
          end
      end
  end.

(** The same walk, paired with the lookups it performs, in order. *)
Inductive level : Type := REGION | FRAMEWORK | ACCELERATOR | VERSION.

Definition walk
    (framework framework_version : string) (region : option string)
    (accelerator : string) : list (level * string) * result string :=
  let region := normalize_region region in
  let framework := normalize_framework framework in
  match Py.get URI_MAP region with
  | None | Some [] => ([(REGION, region)], Raise (region_error region))
  | Some fm =>
      match Py.get fm framework with
      | None | Some [] =>
          ([(REGION, region); (FRAMEWORK, framework)],
           Raise (framework_error framework fm))
      | Some am =>
          match Py.get am accelerator with
          | None | Some [] =>
              ([(REGION, region); (FRAMEWORK, framework);
                (ACCELERATOR, accelerator)],
               Raise (accelerator_error framework accelerator am))
          | Some vm =>
              ([(REGION, region); (FRAMEWORK, framework);
                (ACCELERATOR, accelerator);
                (VERSION, framework_version)],
               match Py.get vm framework_version with
               | None | Some EmptyString =>
                   Raise (version_error framework framework_version
                            accelerator vm)
               | Some final_uri => Ok final_uri
               end)
          end
      end
  end.

End Resolver.

(** Shape of a lookup table whose keys are the ones the resolver looks
    up: region keys are non-empty and hyphen-free, framework keys are
    lower-case (the docstring names [us], [asia], [europe] and
    [tensorflow], [xgboost], [sklearn]). *)
Definition region_key_ok (k : string) : bool :=
  Py.truthy_str k && String.eqb (Py.split_first "-" k) k.

Definition framework_key_ok (k : string) : bool :=
  String.eqb (Py.lower k) k.

Definition normal_keys (m : uri_map) : bool :=
  forallb (fun rf : string * frameworks =>
             region_key_ok (fst rf) &&
             forallb (fun fa : string * accelerators =>
                        framework_key_ok (fst fa)) (snd rf)) m.

(** No level of the table is an empty mapping. *)
Definition populated (m : uri_map) : bool :=
  forallb (fun rf : string * frameworks =>
             Py.truthy_list (snd rf) &&
             forallb (fun fa : string * accelerators =>
                        Py.truthy_list (snd fa) &&
                        forallb (fun av : string * versions =>
                                   Py.truthy_list (snd av)) (snd fa))
                     (snd rf)) m.

Definition example_map : uri_map :=
  [("us",
     [("tensorflow",
        [("cpu", [("2.6", "us-docker.pkg.dev/vertex-ai/prediction/tf2-cpu.2-6:latest")]);
         ("gpu", [("2.6", "us-docker.pkg.dev/vertex-ai/prediction/tf2-gpu.2-6:latest")])]);
      ("sklearn",
        [("cpu", [("0.24", "us-docker.pkg.dev/vertex-ai/prediction/sklearn-cpu.0-24:latest")])])]);
   ("europe",
     [("tensorflow",
        [("cpu", [("2.6", "europe-docker.pkg.dev/vertex-ai/prediction/tf2-cpu.2-6:latest")])])])].

Definition example_docs_url : string :=
  "https://cloud.google.com/vertex-ai/docs/predictions/pre-built-containers".

End ContainerUri.

(** ** datasets/dataset.py *)

Module Datasets.

(** [gca_dataset.Dataset], the resource as the service holds it. *)
Record GcaDataset : Type := {
  name : string;
  display_name : string;
  metadata_schema_uri : string;
  metadata : option string
}.

(** [gca_dataset.ImportDataConfig]. *)
Inductive Source : Type :=
| GcsSource (uris : list string)
| BigQuerySource (input_uri : string).

Record ImportDataConfig : Type := {
  source : Source;
  import_schema_uri : string;
  data_item_labels : option (Py.dict string)
}.

(** [gca_io.GcsDestination] and [gca_dataset.ExportDataConfig]. *)
Record GcsDestination : Type := { output_uri_prefix : string }.
Record ExportDataConfig : Type := { gcs_destination : GcsDestination }.
Record ExportDataResponse : Type := { exported_files : list string }.

(** [_datasources.Datasource]: every datasource has [dataset_metadata];
    a [DatasourceImportable] has [import_data_config] as well. *)
Inductive Datasource : Type :=
| DatasourceNonImportable (dataset_metadata : option string)
| DatasourceImportable (dataset_metadata : option string)
    (import_data_config : ImportDataConfig).

Definition dataset_metadata (d : Datasource) : option string :=
  match d with
  | DatasourceNonImportable m => m
  | DatasourceImportable m _ => m
  end.

Definition isinstance_DatasourceImportable (d : Datasource) : bool :=
  match d with
  | DatasourceNonImportable _ => false
  | DatasourceImportable _ _ => true
  end.

(** What reaches the Remote API Gateway, and the completions the caller
    observes, oldest first. *)
Inductive event : Type :=
| CreateDataset (parent : string) (dataset : GcaDataset)
    (request_metadata : list (string * string))
| GetDataset (resource : string)
| ImportData (resource : string) (import_configs : list ImportDataConfig)
| ExportData (resource : string) (export_config : ExportDataConfig)
| OperationDone (operation : string)
| FutureDone.

Definition history : Type := list event.

(** [operation.Operation]: a long-running operation and the outcome its
    [result()] yields once the operation has completed. *)
Record Operation (A : Type) : Type := {
  operation_name : string;
  outcome : result A
}.
Arguments operation_name {A} o.
Arguments outcome {A} o.

(** [DatasetServiceClient]: the service's answer to each request may
    depend on everything it has received so far. *)
Record DatasetServiceClient : Type := {
  create_dataset : history -> string -> GcaDataset ->
                   list (string * string) -> result (Operation GcaDataset);
  get_dataset : history -> string -> result GcaDataset;
  import_data : history -> string -> list ImportDataConfig ->
                result (Operation unit);
  export_data_rpc : history -> string -> ExportDataConfig ->
                    result (Operation ExportDataResponse)
}.

(** Computations that talk to the gateway and may raise. *)
Definition M (A : Type) : Type := history -> result A * history.

Definition ret {A} (a : A) : M A := fun h => (Ok a, h).

Definition raise {A} (e : exn) : M A := fun h => (Raise e, h).

Definition bind {A B} (m : M A) (k : A -> M B) : M B :=
  fun h =>
    match m h with
    | (Ok a, h') => k a h'
    | (Raise e, h') => (Raise e, h')
    end.

Definition lift {A} (r : result A) : M A := fun h => (r, h).

(** One request: the service answers from what it has seen, and the
    request joins the history. *)
Definition request {A} (e : event) (answer : history -> result A) : M A :=
  fun h => (answer h, (h ++ [e])%list).

(** [lro.result()]: returns or raises when the operation has completed. *)
Definition result_of {A} (lro : Operation A) : M A :=
  fun h => (outcome lro, (h ++ [OperationDone (operation_name lro)])%list).

Declare Scope py_scope.
Delimit Scope py_scope with py.
Notation "x <- m ;; k" := (bind m (fun x => k))
  (at level 61, m at next level, right associativity) : py_scope.
Notation "m ;; k" := (bind m (fun _ => k))
  (at level 61, right associativity) : py_scope.
Open Scope py_scope.

(** The handle. [_latest_future] holds the deferred work of a handle
    returned by a call with [sync=False]. *)
#[warnings="-register-all"] Inductive Dataset : Type := Build_Dataset {
  _gca_resource : option GcaDataset;
  project : option string;
  location : option string;
  credentials : option string;
  api_client : DatasetServiceClient;
  _latest_future : option (history -> result Dataset * history)
}.

(** The class of a handle: [Dataset] itself or one of its subclasses. *)
Record DatasetClass : Type := {
  __name__ : string;
  _supported_metadata_schema_uris : option (list string)
}.

(** [initializer.global_config]. *)
Record Config : Type := {
  config_project : option string;
  config_location : option string;
  config_credentials : option string
}.

(** [a or b] on optional strings: [None] and the empty string are falsy. *)
Definition or_else (a b : option string) : option string :=
  match a with
  | Some s => if Py.truthy_str s then a else b
  | None => b
  end.

Section Controller.

Variable global_config : Config.

(** [cls._instantiate_client(location, credentials)] builds a client
    and sends nothing. *)
Variable _instantiate_client :
  option string -> option string -> DatasetServiceClient.

(** Modelled from the spec: [utils.validate_display_name] is not
    among the embedded files. Section 4.1: create "validates
    display_name is non-empty and within length/charset limits";
    the docstring of [create] gives the limit, 128 characters of any
    kind. *)
Definition validate_display_name (display_name : string)
  : result unit :=
  if Nat.eqb (String.length display_name) 0 then
    Raise (ValueError "Display name can not be empty.")
  else if Nat.ltb 128 (String.length display_name) then
    Raise (ValueError "Display name needs to be less than 128 characters.")
  else Ok tt.

(** [Union[str, Sequence[str]]]. *)
Inductive GcsArg : Type :=
| GcsStr (uri : string)
| GcsSeq (uris : list string).

Definition gcs_uris (g : option GcsArg) : list string :=
  match g with
  | None => []
  | Some (GcsStr s) => if Py.truthy_str s then [s] else []
  | Some (GcsSeq l) => l
  end.

Definition is_set (s : option string) : bool :=
  match s with
  | Some v => Py.truthy_str v
  | None => false
  end.

(** Modelled from the spec: the two failure conditions of datasource
    construction. Section 3: "exactly one storage origin is set at a
    time"; section 4.1: "fails with an invalid-argument condition if
    source fields are contradictory or a required URI is missing". A
    request to import (an import schema) needs the URI of a storage
    origin. *)
Definition contradictory_sources (gcs_source : option GcsArg)
    (bq_source : option string) : bool :=
  Py.truthy_list (gcs_uris gcs_source) && is_set bq_source.

Definition required_uri_missing (import_schema_uri : option string)
    (gcs_source : option GcsArg) (bq_source : option string) : bool :=
  is_set import_schema_uri &&
  negb (Py.truthy_list (gcs_uris gcs_source) || is_set bq_source).

(** Modelled from the spec: [_datasources.create_datasource] is not
    among the embedded files. Section 3: the descriptor is a tagged
    union of a Cloud-Storage file list and a BigQuery table, "each
    paired with an optional import-schema URI and optional per-item
    label mapping"; "importable variants carry an import
    configuration, non-importable variants (e.g., creation without
    any source) do not". *)
Definition create_datasource (metadata_schema_uri : string)
    (import_schema_uri : option string) (gcs_source : option GcsArg)
    (bq_source : option string)
    (data_item_labels : option (Py.dict string)) : result Datasource :=
  if contradictory_sources gcs_source bq_source then
    Raise (ValueError "Only one of gcs_source or bq_source can be set.")
  else if required_uri_missing import_schema_uri gcs_source bq_source
  then
    Raise (ValueError "One of gcs_source or bq_source must be set.")
  else
    let origin :=
      match gcs_uris gcs_source, bq_source with
      | (_ :: _) as l, _ => Some (GcsSource l)
      | [], Some t => if Py.truthy_str t then Some (BigQuerySource t)
                      else None
      | [], None => None
      end in
    match origin, import_schema_uri with
    | Some o, Some schema =>
        if Py.truthy_str schema then
          Ok (DatasourceImportable None
                {| source := o;
                   import_schema_uri := schema;
                   data_item_labels := data_item_labels |})
        else
          Ok (DatasourceNonImportable
                (Some match o with
                      | GcsSource l => Py.join "," l
                      | BigQuerySource t => t
                      end))
    | Some o, None =>
        Ok (DatasourceNonImportable
              (Some match o with
                    | GcsSource l => Py.join "," l
                    | BigQuerySource t => t
                    end))
    | None, _ => Ok (DatasourceNonImportable None)
    end.

(** Modelled from the spec:
    [initializer.global_config.common_location_path] is not among
    the embedded files; the docstring of [_create_and_import] shows its
    form, "projects/my-prj/locations/us-central1". *)
Definition common_location_path (project location : option string)
  : string :=
  let p := match or_else project (config_project global_config) with
           | Some p => p | None => "" end in
  let l := match or_else location (config_location global_config) with
           | Some l => l | None => "" end in
  "projects/" ++ p ++ "/locations/" ++ l.

(** [resource_name] and [metadata_schema_uri] read the cached copy of
    the remote resource; a handle that has none yet has no such
    attribute. *)
Definition resource_name (self : Dataset) : M string :=
  match _gca_resource self with
  | Some r => ret (name r)
  | None =>
      raise (AttributeError
               "'Dataset' object has no attribute '_gca_resource'")
  end.

Definition metadata_schema_uri_of (self : Dataset) : M string :=
  match _gca_resource self with
  | Some r => ret (metadata_schema_uri r)
  | None =>
      raise (AttributeError
               "'Dataset' object has no attribute '_gca_resource'")
  end.

(** Modelled from the spec: [_get_gca_resource] belongs to the base
    class, which is not among the embedded files. Section 4.1:
    "after fetching remote metadata"; section 6: get-dataset is one of
    the gateway operations consumed. *)
Definition _get_gca_resource (client : DatasetServiceClient)
    (resource : string) : M GcaDataset :=
  request (GetDataset resource) (fun h => get_dataset client h resource).

Definition mismatch_error (cls : DatasetClass) (resource : string) : exn :=
  ValueError
    (__name__ cls ++ " class can not be used to retrieve " ++
     "dataset resource " ++ resource ++ ", check the dataset type").

Definition _validate_metadata_schema_uri (cls : DatasetClass)
    (self : Dataset) : M unit :=
  match _supported_metadata_schema_uris cls with
  | Some ((_ :: _) as supported) =>
      uri <- metadata_schema_uri_of self ;;
      if negb (Py.contains supported uri) then
        resource <- resource_name self ;;
        raise (mismatch_error cls resource)
      else ret tt
  | _ => ret tt
  end.

(** [Dataset.__init__]; the first line is the base initialiser, which
    fills in the ambient project, location and credentials and builds
    the client. *)
Definition __init__ (cls : DatasetClass) (dataset_name : string)
    (project location credentials : option string) : M Dataset :=
  let client := _instantiate_client
                  (or_else location (config_location global_config))
                  (or_else credentials
                     (config_credentials global_config)) in
  gca <- _get_gca_resource client dataset_name ;;
  let self :=
    {| _gca_resource := Some gca;
       project := or_else project (config_project global_config);
       location := or_else location (config_location global_config);
       credentials :=
         or_else credentials (config_credentials global_config);
       api_client := client;
       _latest_future := None |} in
  _validate_metadata_schema_uri cls self ;;
  ret self.

Definition _create (api_client : DatasetServiceClient)
    (parent display_name metadata_schema_uri : string)
    (datasource : Datasource)
    (request_metadata : list (string * string))
  : M (Operation GcaDataset) :=
  let gapic_dataset :=
    {| name := "";
       display_name := display_name;
       metadata_schema_uri := metadata_schema_uri;
       metadata := dataset_metadata datasource |} in
  request (CreateDataset parent gapic_dataset request_metadata)
    (fun h => create_dataset api_client h parent gapic_dataset
                request_metadata).

Definition _import (self : Dataset) (import_data_config : ImportDataConfig)
  : M (Operation unit) :=
  resource <- resource_name self ;;
  request (ImportData resource [import_data_config])
    (fun h => import_data (api_client self) h resource
                [import_data_config]).

(** The body of [_create_and_import], below its decorator. *)
Definition _create_and_import_body (cls : DatasetClass)
    (api_client : DatasetServiceClient)
    (parent display_name metadata_schema_uri : string)
    (datasource : Datasource)
    (project location credentials : option string)
    (request_metadata : list (string * string)) : M Dataset :=
  create_dataset_lro <-
    _create api_client parent display_name metadata_schema_uri
      datasource request_metadata ;;
  created_dataset <- result_of create_dataset_lro ;;
  dataset_obj <- __init__ cls (name created_dataset) project location
                   credentials ;;
  match datasource with
  | DatasourceImportable _ import_data_config =>
      import_lro <- _import dataset_obj import_data_config ;;
      result_of import_lro ;;
      ret dataset_obj
  | DatasourceNonImportable _ => ret dataset_obj
  end.

(** Modelled from the spec: [base.optional_sync] is not among the
    embedded files. Section 4.1: "If sync is true, blocks until both
    operations complete and returns a fully-populated Resource Handle;
    if false, returns a placeholder immediately and completes
    population in the background". The placeholder keeps the deferred
    work as its [_latest_future]. *)
Definition optional_sync (sync : bool) (method : M Dataset)
  : M Dataset :=
  if sync then method
  else
    ret {| _gca_resource := None;
           project := None;
           location := None;
           credentials := None;
           api_client := _instantiate_client None None;
           _latest_future := Some method |}.

Definition _create_and_import (cls : DatasetClass)
    (api_client : DatasetServiceClient)
    (parent display_name metadata_schema_uri : string)
    (datasource : Datasource)
    (project location credentials : option string)
    (request_metadata : list (string * string)) (sync : bool)
  : M Dataset :=
  optional_sync sync
    (_create_and_import_body cls api_client parent display_name
       metadata_schema_uri datasource project location credentials
       request_metadata).

(** [Dataset.create]. *)
Definition create (cls : DatasetClass)
    (display_name metadata_schema_uri : string)
    (gcs_source : option GcsArg) (bq_source : option string)
    (import_schema_uri : option string)
    (data_item_labels : option (Py.dict string))
    (project location credentials : option string)
    (request_metadata : list (string * string)) (sync : bool)
  : M Dataset :=
  lift (validate_display_name display_name) ;;
  let api_client := _instantiate_client location credentials in
  datasource <-
    lift (create_datasource metadata_schema_uri import_schema_uri
            gcs_source bq_source data_item_labels) ;;
  _create_and_import cls api_client
    (common_location_path project location)
    display_name metadata_schema_uri datasource
    (or_else project (config_project global_config))
    (or_else location (config_location global_config))
    (or_else credentials (config_credentials global_config))
    request_metadata sync.

(** Modelled from the spec: [wait] belongs to the base class, which is
    not among the embedded files. Section 4.1: a handle under
    asynchronous creation goes "PENDING -> {COMPLETE, FAILED}"; an
    accessor "blocks until the background operation lands in COMPLETE
    (returns the handle) or FAILED (propagates the captured remote
    error to the caller)". Blocking runs the deferred work to its
    end; the handle then takes the fields of the result. *)
Definition wait (self : Dataset) : M Dataset :=
  match _latest_future self with
  | None => ret self
  | Some future =>
      fun h =>
        match future h with
        | (Ok obj, h') =>
            (Ok {| _gca_resource := _gca_resource obj;
                   project := project obj;
                   location := location obj;
                   credentials := credentials obj;
                   api_client := api_client obj;
                   _latest_future := None |},
             (h' ++ [FutureDone])%list)
        | (Raise e, h') => (Raise e, (h' ++ [FutureDone])%list)
        end
  end.

(** [Dataset.export_data]. *)
Definition export_data (self : Dataset) (output_dir : string)
  : M (list string) :=
  self <- wait self ;;
  let export_data_config :=
    {| gcs_destination := {| output_uri_prefix := output_dir |} |} in
  resource <- resource_name self ;;
  export_lro <-
    request (ExportData resource export_data_config)
      (fun h => export_data_rpc (api_client self) h resource
                  export_data_config) ;;
  export_data_response <- result_of export_lro ;;
  ret (exported_files export_data_response).

End Controller.

(** The reading the specification gives of [output_dir] in section 4.1:
    "validates output_dir is a storage URI, normalizes trailing
    separator". These two are not taken from the source. *)
Definition spec_is_storage_uri (output_dir : string) : bool :=
  Py.startswith "gs://" output_dir.

Definition spec_normalize_output_dir (output_dir : string) : string :=
  if Py.ends_with_char "/" output_dir then output_dir
  else output_dir ++ "/".

(** Requests in a history. *)
Definition is_request (e : event) : bool :=
  match e with
  | OperationDone _ | FutureDone => false
  | _ => true
  end.

Definition is_import_request (e : event) : bool :=
  match e with
  | ImportData _ _ => true
  | _ => false
  end.

Definition is_export_request (e : event) : bool :=
  match e with
  | ExportData _ _ => true
  | _ => false
  end.

(** What the import step of [_create_and_import] adds to the history. *)
Definition import_events (datasource : Datasource)
    (resource import_operation : string) : list event :=
  match datasource with
  | DatasourceNonImportable _ => []
  | DatasourceImportable _ import_data_config =>
      [ImportData resource [import_data_config];
       OperationDone import_operation]
  end.

(** The sentence of section 4.1 on [export_data], read on one call: a
    directory that is not a storage URI is refused before anything is
    sent, and an export request carries the directory with its trailing
    separator. *)
Definition export_validates_and_normalizes (self : Dataset)
    (output_dir : string) (h : history) : Prop :=
  let run := export_data self output_dir h in
  (spec_is_storage_uri output_dir = false ->
   is_value_error (fst run) = true /\ snd run = h)
  /\ (forall resource export_config,
         In (ExportData resource export_config) (snd run) ->
         output_uri_prefix (gcs_destination export_config)
         = spec_normalize_output_dir output_dir).

(** Two schema URIs, and a gateway that accepts every request, for the
    examples. *)
Definition image_schema : string :=
  "gs://google-cloud-aiplatform/schema/dataset/metadata/image_1.0.0.yaml".

Definition tabular_schema : string :=
  "gs://google-cloud-aiplatform/schema/dataset/metadata/tabular_1.0.0.yaml".

Definition example_client : DatasetServiceClient :=
  {| create_dataset h parent dataset request_metadata :=
       Ok {| operation_name := "operations/create-1";
             outcome :=
               Ok {| name := parent ++ "/datasets/1";
                     display_name := display_name dataset;
                     metadata_schema_uri := metadata_schema_uri dataset;
                     metadata := metadata dataset |} |};
     get_dataset h resource :=
       Ok {| name := resource;
             display_name := "flowers";
             metadata_schema_uri := image_schema;
             metadata := None |};
     import_data h resource import_configs :=
       Ok {| operation_name := "operations/import-1"; outcome := Ok tt |};
     export_data_rpc h resource export_config :=
       Ok {| operation_name := "operations/export-1";
             outcome :=
               Ok {| exported_files :=
                       [output_uri_prefix (gcs_destination export_config)
                        ++ "export-data-flowers/data.jsonl"] |} |} |}.

Definition example_config : Config :=
  {| config_project := Some "my-prj";
     config_location := Some "us-central1";
     config_credentials := None |}.

Definition example_instantiate_client (location credentials : option string)
  : DatasetServiceClient := example_client.

Definition dataset_class : DatasetClass :=
  {| __name__ := "Dataset"; _supported_metadata_schema_uris := None |}.

Definition image_dataset_class : DatasetClass :=
  {| __name__ := "ImageDataset";
     _supported_metadata_schema_uris := Some [image_schema] |}.

Definition tabular_dataset_class : DatasetClass :=
  {| __name__ := "TabularDataset";
     _supported_metadata_schema_uris := Some [tabular_schema] |}.

Definition example_resource : GcaDataset :=
  {| name := "projects/my-prj/locations/us-central1/datasets/1";
     display_name := "flowers";
     metadata_schema_uri := image_schema;
     metadata := None |}.

Definition example_handle : Dataset :=
  {| _gca_resource := Some example_resource;
     project := Some "my-prj";
     location := Some "us-central1";
     credentials := None;
     api_client := example_client;
     _latest_future := None |}.

(** The placeholder returned by a [create] with [sync=False]. *)
Definition example_pending_handle : Dataset :=
  match fst (create example_config example_instantiate_client dataset_class
               "flowers" image_schema None None None None None None None []
               false [])
  with
  | Ok placeholder => placeholder
  | Raise _ => example_handle
  end.

Close Scope py_scope.

End Datasets.

(** ** experimental/vertex_model/serializers/pandas.py *)

Module PandasSerializer.

(** The local file system (path to content) and the blobs held by the
    Object Storage Gateway (bucket, blob name, content). *)
Record world : Type := {
  files : Py.dict string;
  blobs : list (string * string * string)
}.

Definition M (A : Type) : Type := world -> result A * world.

Definition ret {A} (a : A) : M A := fun w => (Ok a, w).

Definition raise {A} (e : exn) : M A := fun w => (Raise e, w).

Definition bind {A B} (m : M A) (k : A -> M B) : M B :=
  fun w =>
    match m w with
    | (Ok a, w') => k a w'
    | (Raise e, w') => (Raise e, w')
    end.

Declare Scope io_scope.
Delimit Scope io_scope with io.
Notation "x <- m ;; k" := (bind m (fun x => k))
  (at level 61, m at next level, right associativity) : io_scope.
Notation "m ;; k" := (bind m (fun _ => k))
  (at level 61, right associativity) : io_scope.
Open Scope io_scope.

(** The names the module binds at its top level: its [import] statements
    (lines 18 to 41) and its two [def]s. *)
Definition module_globals : list string :=
  ["functools"; "inspect"; "logging"; "tempfile"; "io"; "sys";
   "Any"; "Dict"; "List"; "Sequence"; "Tuple"; "Type";
   "operation"; "auth_credentials"; "initializer"; "utils";
   "gca_encryption_spec"; "aiplatform"; "pd";
   "_serialize_dataframe"; "_deserialize_dataframe"].

(** [pathlib.Path(d) / name] and [path.name]. *)
Definition path_join (d name : string) : string := d ++ "/" ++ name.

Fixpoint path_name_from (acc s : string) : string :=
  match s with
  | EmptyString => acc
  | String c rest =>
      if Ascii.eqb c "/" then path_name_from EmptyString rest
      else path_name_from (acc ++ String c EmptyString) rest
  end.

Definition path_name (p : string) : string := path_name_from EmptyString p.

Section Serializer.

(** The module namespace in force when the function runs. *)
Variable globals : list string.

(** [pd.DataFrame] and the text [to_csv] writes for it. *)
Variable DataFrame : Type.
Variable csv_text : DataFrame -> string.

(** The directory [tempfile] picks, and the helper of [utils] that splits
    a storage URI into bucket and prefix. *)
Variable mkdtemp : world -> string.
Variable extract_bucket_and_prefix_from_gcs_path :
  string -> string * option string.

(** Reading a global name. *)
Definition global (n : string) : M unit :=
  if Py.contains globals n then ret tt
  else raise (NameError ("name '" ++ n ++ "' is not defined")).

(** [with tempfile.TemporaryDirectory() as tmpdirname: body]: the
    directory is created (taken to succeed) and, on the way out, by
    return or by exception, it goes with all it holds. *)
Definition with_TemporaryDirectory {A} (body : string -> M A) : M A :=
  fun w =>
    let tmpdirname := mkdtemp w in
    match body tmpdirname w with
    | (r, w') =>
        (r, {| files :=
                 filter (fun f => negb (Py.startswith (tmpdirname ++ "/")
                                          (fst f))) (files w');
               blobs := blobs w' |})
    end.

(** [obj.to_csv(path)]. *)
Definition to_csv (obj : DataFrame) (path : string) : M unit :=
  fun w => (Ok tt, {| files := (path, csv_text obj) :: files w;
                      blobs := blobs w |}).

(** [blob.upload_from_filename(path)] opens the local file first. *)
Definition upload_from_filename (bucket blob path : string) : M unit :=
  fun w =>
    match Py.get (files w) path with
    | Some content =>
        (Ok tt, {| files := files w;
                   blobs := (bucket, blob, content) :: blobs w |})
    | None =>
        (Raise (FileNotFoundError
                  ("No such file or directory: '" ++ path ++ "'")), w)
    end.

(** [_serialize_dataframe]. *)
Definition _serialize_dataframe (artifact_uri : string) (obj : DataFrame)
    (dataset_type : string) : M string :=
  global "tempfile" ;;
  path_to_csv <-
    with_TemporaryDirectory (fun tmpdirname =>
      global "pathlib" ;;
      let temp_dir :=
        path_join tmpdirname ("my_" ++ dataset_type ++ "_dataset.csv") in
      global "pathlib" ;;
      let path_to_csv := temp_dir in
      to_csv obj path_to_csv ;;
      ret path_to_csv) ;;
  global "extract_bucket_and_prefix_from_gcs_path" ;;
  let (gcs_bucket, gcs_blob_prefix) :=
    extract_bucket_and_prefix_from_gcs_path artifact_uri in
  let local_file_name := path_name path_to_csv in
  let blob_path := local_file_name in
  let blob_path :=
    match gcs_blob_prefix with
    | Some prefix =>
        if Py.truthy_str prefix then Py.join "/" [prefix; blob_path]
        else blob_path
    | None => blob_path
    end in
  global "storage" ;;
  global "initializer" ;;
  global "initializer" ;;
  upload_from_filename gcs_bucket blob_path path_to_csv ;;
  let gcs_path := Py.join "" ["gs://"; Py.join "/" [gcs_bucket; blob_path]] in
  ret gcs_path.

End Serializer.

(** The names [_serialize_dataframe] reads from the module namespace. *)
Definition names_read : list string :=
  ["tempfile"; "pathlib"; "extract_bucket_and_prefix_from_gcs_path";
   "storage"; "initializer"].

(** An environment for the examples. *)
Definition example_mkdtemp (w : world) : string := "/tmp/tmpk3v9x0aq".

Definition example_extract (artifact_uri : string) : string * option string :=
  ("my-bucket", Some "staging").

Definition empty_world : world := {| files := []; blobs := [] |}.

Close Scope io_scope.

End PandasSerializer.

(** ** datasets/dataset.py: [import_data] *)

Module DatasetsImport.

Import Datasets.
Open Scope py_scope.

(** Modelled from the spec: [base.optional_sync(return_input_arg="self")]
    is not among the embedded files. Section 4.1: [import_data] "returns
    the same handle once the import operation completes (sync) or
    immediately with deferred completion (async)", and a pending handle
    blocks until it is ready. *)
Definition optional_sync_self (sync : bool) (self : Dataset)
    (method : Dataset -> M Dataset) : M Dataset :=
  if sync then
    self <- wait self ;;
    method self
  else
    ret {| _gca_resource := _gca_resource self;
           project := project self;
           location := location self;
           credentials := credentials self;
           api_client := api_client self;
           _latest_future := Some (self <- wait self ;; method self) |}.

(** The body of [import_data], below its decorator. A datasource that is
    no [DatasourceImportable] has no [import_data_config]: reading it fails
    once the resource name, the argument before it, has been read. *)
Definition import_data_body (gcs_source : GcsArg)
    (import_schema_uri : string)
    (data_item_labels : option (Py.dict string)) (self : Dataset)
  : M Dataset :=
  uri <- metadata_schema_uri_of self ;;
  datasource <-
    lift (create_datasource uri (Some import_schema_uri) (Some gcs_source)
            None data_item_labels) ;;
  import_lro <-
    match datasource with
    | DatasourceImportable _ import_data_config =>
        _import self import_data_config
    | DatasourceNonImportable _ =>
        resource_name self ;;
        raise (AttributeError
                 "datasource object has no attribute 'import_data_config'")
    end ;;
  result_of import_lro ;;
  ret self.

(** A gateway whose import operation fails, for the examples. *)
Definition failing_import_client : DatasetServiceClient :=
  {| create_dataset := create_dataset example_client;
     get_dataset := get_dataset example_client;
     import_data h resource import_configs :=
       Ok {| operation_name := "operations/import-1";
             outcome := Raise (RemoteError "400 malformed import file") |};
     export_data_rpc := export_data_rpc example_client |}.

(** A gateway whose create operation fails. *)
Definition failing_create_client : DatasetServiceClient :=
  {| create_dataset h parent dataset request_metadata :=
       Ok {| operation_name := "operations/create-1";
             outcome := Raise (RemoteError "403 permission denied") |};
     get_dataset := get_dataset example_client;
     import_data := Datasets.import_data example_client;
     export_data_rpc := export_data_rpc example_client |}.

(** A gateway that knows no dataset. *)
Definition empty_client : DatasetServiceClient :=
  {| create_dataset := create_dataset example_client;
     get_dataset h resource := Raise (RemoteError "404 dataset not found");
     import_data := Datasets.import_data example_client;
     export_data_rpc h resource export_config :=
       Raise (RemoteError "404 dataset not found") |}.

Definition failing_import_instantiate_client
    (location credentials : option string) : DatasetServiceClient :=
  failing_import_client.

Definition failing_create_instantiate_client
    (location credentials : option string) : DatasetServiceClient :=
  failing_create_client.

(** A handle on the example resource whose gateway fails imports, and one
    whose gateway has lost the dataset. *)
Definition failing_import_handle : Dataset :=
  {| _gca_resource := Some example_resource;
     project := Some "my-prj";
     location := Some "us-central1";
     credentials := None;
     api_client := failing_import_client;
     _latest_future := None |}.

Definition orphan_handle : Dataset :=
  {| _gca_resource := Some example_resource;
     project := Some "my-prj";
     location := Some "us-central1";
     credentials := None;
     api_client := empty_client;
     _latest_future := None |}.

(** The operations and the import configuration of the examples. *)
Definition failed_create_operation : Operation GcaDataset :=
  {| operation_name := "operations/create-1";
     outcome := Raise (RemoteError "403 permission denied") |}.

Definition failed_import_operation : Operation unit :=
  {| operation_name := "operations/import-1";
     outcome := Raise (RemoteError "400 malformed import file") |}.

Definition import_operation : Operation unit :=
  {| operation_name := "operations/import-1"; outcome := Ok tt |}.

Definition create_operation (created : GcaDataset) : Operation GcaDataset :=
  {| operation_name := "operations/create-1"; outcome := Ok created |}.

Definition import_config_of (uris : list string) : ImportDataConfig :=
  {| source := GcsSource uris;
     import_schema_uri := "gs://my-bucket/import_schema.yaml";
     data_item_labels := None |}.

Definition created_tabular : GcaDataset :=
  {| name := "projects/my-prj/locations/us-central1/datasets/1";
     display_name := "flowers";
     metadata_schema_uri := tabular_schema;
     metadata := Some "gs://my-bucket/flowers.csv" |}.

(** [Dataset.import_data]. *)
Definition import_data (self : Dataset) (gcs_source : GcsArg)
    (import_schema_uri : string)
    (data_item_labels : option (Py.dict string)) (sync : bool)
  : M Dataset :=
  optional_sync_self sync self
    (import_data_body gcs_source import_schema_uri data_item_labels).

Close Scope py_scope.

End DatasetsImport.

(** ** experimental/vertex_model/serializers/pandas.py:
       [_deserialize_dataframe] *)

Module PandasDeserializer.

Import PandasSerializer.

(** The exceptions of the first part, and [RuntimeError], which the
    handler of [_deserialize_dataframe] raises. *)
Inductive pyexn : Type :=
| Builtin (e : exn)
| RuntimeError (msg : string).

Inductive res (A : Type) : Type :=
| Return (a : A)
| Throw (e : pyexn).
Arguments Return {A} a.
Arguments Throw {A} e.

Definition IO (A : Type) : Type := world -> res A * world.

Definition unit_io {A} (a : A) : IO A := fun w => (Return a, w).

Definition throw {A} (e : pyexn) : IO A := fun w => (Throw e, w).

Definition and_then {A B} (m : IO A) (k : A -> IO B) : IO B :=
  fun w =>
    match m w with
    | (Return a, w') => k a w'
    | (Throw e, w') => (Throw e, w')
    end.

Declare Scope des_scope.
Delimit Scope des_scope with des.
Notation "x <- m ;; k" := (and_then m (fun x => k))
  (at level 61, m at next level, right associativity) : des_scope.
Notation "m ;; k" := (and_then m (fun _ => k))
  (at level 61, right associativity) : des_scope.
Open Scope des_scope.

(** [str(err)]. *)
Definition str_of (e : pyexn) : string :=
  match e with
  | Builtin (ValueError m) | Builtin (NameError m)
  | Builtin (AttributeError m) | Builtin (FileNotFoundError m)
  | Builtin (NotImplementedError m) | Builtin (RemoteError m) => m
  | RuntimeError m => m
  end.

(** [isinstance(err, (ValueError, RuntimeError))]; [NotImplementedError]
    derives from [RuntimeError]. *)
Definition is_ValueError_or_RuntimeError (e : pyexn) : bool :=
  match e with
  | Builtin (ValueError _) | Builtin (NotImplementedError _)
  | RuntimeError _ => true
  | _ => false
  end.

(** [try: body / except (ValueError, RuntimeError) as err: handler /
    finally: final]. An exception of the [finally] clause takes the place
    of whatever was on its way. *)
Definition try_except_finally {A} (body : IO A) (handler : pyexn -> IO A)
    (final : IO unit) : IO A :=
  fun w =>
    let (r, w1) :=
      match body w with
      | (Throw e, w') =>
          if is_ValueError_or_RuntimeError e then handler e w'
          else (Throw e, w')
      | (Return a, w') => (Return a, w')
      end in
    match final w1 with
    | (Return _, w2) => (r, w2)
    | (Throw e, w2) => (Throw e, w2)
    end.

(** The blob a bucket holds under a name. *)
Fixpoint blob_get (l : list (string * string * string))
    (bucket blob : string) : option string :=
  match l with
  | [] => None
  | (b, n, content) :: rest =>
      if String.eqb b bucket && String.eqb n blob then Some content
      else blob_get rest bucket blob
  end.

(** The names [_deserialize_dataframe] reads from the module namespace. *)
Definition names_read : list string :=
  ["utils"; "storage"; "initializer"; "pandas"; "tempfile"; "pathlib";
   "pd"; "logger"; "logging_warning_filter"].

Section Deserializer.

Variable globals : list string.

(** [pd.DataFrame], the empty frame [pandas.DataFrame()] and what
    [pd.read_csv] makes of the text of a file. *)
Variable DataFrame : Type.
Variable empty_frame : DataFrame.
Variable read_csv : string -> res DataFrame.

Variable mkdtemp : world -> string.
Variable extract_bucket_and_prefix_from_gcs_path :
  string -> string * option string.

Definition global (n : string) : IO unit :=
  if Py.contains globals n then unit_io tt
  else throw (Builtin (NameError ("name '" ++ n ++ "' is not defined"))).

(** The [with] block of a temporary directory, as in the serializer. *)
Definition with_TemporaryDirectory {A} (body : string -> IO A) : IO A :=
  fun w =>
    let tmpdirname := mkdtemp w in
    match body tmpdirname w with
    | (r, w') =>
        (r, {| files :=
                 filter (fun f => negb (Py.startswith (tmpdirname ++ "/")
                                          (fst f))) (files w');
               blobs := blobs w' |})
    end.

(** [blob.download_to_filename(path)]: the gateway reports a blob it does
    not hold, or a blob without a name, as an error of its own. *)
Definition download_to_filename (bucket : string) (blob : option string)
    (path : string) : IO unit :=
  fun w =>
    match match blob with
          | Some n => blob_get (blobs w) bucket n
          | None => None
          end
    with
    | Some content =>
        (Return tt, {| files := (path, content) :: files w;
                       blobs := blobs w |})
    | None => (Throw (Builtin (RemoteError "404 No such object")), w)
    end.

(** [pd.read_csv(path)] opens the local file and parses its text. *)
Definition read_csv_file (path : string) : IO DataFrame :=
  fun w =>
    match Py.get (files w) path with
    | Some content => (read_csv content, w)
    | None =>
        (Throw (Builtin (FileNotFoundError
                           ("No such file or directory: '" ++ path ++ "'"))),
         w)
    end.

(** [_deserialize_dataframe]. *)
Definition _deserialize_dataframe (artifact_uri : string) : IO DataFrame :=
  global "utils" ;;
  let (gcs_bucket, gcs_blob) :=
    extract_bucket_and_prefix_from_gcs_path artifact_uri in
  global "storage" ;;
  global "initializer" ;;
  global "initializer" ;;
  global "pandas" ;;
  let df := empty_frame in
  try_except_finally
    (global "tempfile" ;;
     with_TemporaryDirectory (fun tmpdirname =>
       global "pathlib" ;;
       let dest_file := path_join tmpdirname "deserialized_data.csv" in
       download_to_filename gcs_bucket gcs_blob dest_file ;;
       global "pd" ;;
       df <- read_csv_file dest_file ;;
       unit_io df))
    (fun err =>
       throw (RuntimeError
                ("There was a problem reading the CSV file at '" ++
                 artifact_uri ++ "': " ++ str_of err)))
    (global "logger" ;;
     global "logging_warning_filter" ;;
     unit_io tt).

End Deserializer.

(** An environment for the examples: one blob, and a reader that refuses
    an empty text. *)
Definition example_world : world :=
  {| files := [("/home/me/notes.txt", "keep")];
     blobs := [("my-bucket", "staging", "a,b")] |}.

Definition example_read_csv (text : string) : res string :=
  if Py.truthy_str text then Return text
  else Throw (Builtin (ValueError "No columns to parse from file")).

Close Scope des_scope.

End PandasDeserializer.

(** * Properties *)

(** ** Strings and dictionaries *)

Module PyFacts.

Lemma split_first_idem (sep : ascii) (s : string) :
  Py.split_first sep (Py.split_first sep s) = Py.split_first sep s.
Proof.
  induction s as [|c rest IH]; simpl; [reflexivity|].
  destruct (Ascii.eqb c sep) eqn:E; simpl; [reflexivity|].
  now rewrite E, IH.
Qed.

Lemma lower_ascii_idem (c : ascii) :
  Py.lower_ascii (Py.lower_ascii c) = Py.lower_ascii c.
Proof.
  destruct c as [[] [] [] [] [] [] [] []]; reflexivity.
Qed.

Lemma lower_idem (s : string) : Py.lower (Py.lower s) = Py.lower s.
Proof.
  induction s as [|c rest IH]; simpl; [reflexivity|].
  now rewrite lower_ascii_idem, IH.
Qed.

Lemma truthy_str_true (s : string) : Py.truthy_str s = true <-> s <> "".
Proof.
  destruct s; simpl; split; intro H; try discriminate;
    try reflexivity; now elim H.
Qed.

Lemma or_str_truthy (s b : string) :
  s <> "" -> Py.or_str (Some s) b = s.
Proof.
  intro H. unfold Py.or_str. now destruct s; [elim H|].
Qed.

Lemma get_In {V} (d : Py.dict V) (k : string) (v : V) :
  Py.get d k = Some v -> In (k, v) d.
Proof.
  induction d as [|[k' v'] rest IH]; simpl; [discriminate|].
  destruct (String.eqb k k') eqn:E.
  - apply String.eqb_eq in E. intros [= ->]. left. now subst.
  - intro H. right. now apply IH.
Qed.

Lemma get_forallb {V} (P : string * V -> bool) (d : Py.dict V)
    (k : string) (v : V) :
  forallb P d = true -> Py.get d k = Some v -> P (k, v) = true.
Proof.
  intros Hall Hget. rewrite forallb_forall in Hall.
  apply Hall. now apply get_In.
Qed.

Example split_first_region : Py.split_first "-" "us-east1" = "us".
Proof. reflexivity. Qed.

Example split_first_no_hyphen : Py.split_first "-" "europe" = "europe".
Proof. reflexivity. Qed.

Example lower_framework : Py.lower "TensorFlow" = "tensorflow".
Proof. reflexivity. Qed.

Example join_keys : Py.join ", " ["us"; "europe"; "asia"] = "us, europe, asia".
Proof. reflexivity. Qed.

End PyFacts.

(** ** The container URI resolver *)

Module ContainerUriFacts.

Import ContainerUri.

Section WithTable.

Variable URI_MAP : uri_map.
Variable docs : string.
Variable location : string.

Local Abbreviation resolve :=
  (get_prebuilt_prediction_container_uri URI_MAP docs location).
Local Abbreviation region_of := (normalize_region location).

(** The pair computed by [walk] ends in the value of the function. *)
Lemma walk_result (framework version : string) (region : option string)
    (accelerator : string) :
  snd (walk URI_MAP docs location framework version region accelerator)
  = resolve framework version region accelerator.
Proof.
  unfold walk, get_prebuilt_prediction_container_uri.
  destruct (Py.get URI_MAP _) as [[|? ?]|]; try reflexivity.
  destruct (Py.get (_ :: _) _) as [[|? ?]|]; try reflexivity.
  destruct (Py.get (_ :: _) _) as [[|? ?]|]; reflexivity.
Qed.

Lemma region_key_normal (k : string) :
  region_key_ok k = true -> normalize_region location (Some k) = k.
Proof.
  unfold region_key_ok, normalize_region. intro H.
  apply andb_prop in H as [Ht He].
  apply PyFacts.truthy_str_true in Ht. apply String.eqb_eq in He.
  now rewrite PyFacts.or_str_truthy.
Qed.

Lemma normal_keys_region (region : string) (fm : frameworks) :
  normal_keys URI_MAP = true -> Py.get URI_MAP region = Some fm ->
  region_key_ok region = true /\
  forall framework am, Py.get fm framework = Some am ->
                       framework_key_ok framework = true.
Proof.
  intros Hn Hg.
  pose proof (PyFacts.get_forallb _ _ _ _ Hn Hg) as H. simpl in H.
  apply andb_prop in H as [Hr Hf]. split; [exact Hr|].
  intros framework am Hfa.
  exact (PyFacts.get_forallb _ _ _ _ Hf Hfa).
Qed.

(** C3. In a table whose keys have the form the resolver looks up, every
    quadruple (region, framework, accelerator, version) found level by
    level with a non-empty URI at its leaf resolves to exactly that URI,
    and nothing is raised. *)
Theorem resolve_present_quadruple
    (region framework accelerator version : string)
    (fm : frameworks) (am : accelerators) (vm : versions) (uri : string) :
  normal_keys URI_MAP = true ->
  Py.get URI_MAP region = Some fm ->
  Py.get fm framework = Some am ->
  Py.get am accelerator = Some vm ->
  Py.get vm version = Some uri ->
  uri <> "" ->
  resolve framework version (Some region) accelerator = Ok uri.
Proof.
  intros Hn Hr Hf Ha Hv Hu.
  destruct (normal_keys_region region fm Hn Hr) as [Hrk Hfk].
  specialize (Hfk framework am Hf). apply String.eqb_eq in Hfk.
  unfold get_prebuilt_prediction_container_uri, normalize_framework.
  rewrite (region_key_normal region Hrk), Hfk, Hr.
  destruct fm as [|p fm']; [discriminate Hf|]. rewrite Hf.
  destruct am as [|q am']; [discriminate Ha|]. rewrite Ha.
  destruct vm as [|t vm']; [discriminate Hv|]. rewrite Hv.
  destruct uri; [now elim Hu|reflexivity].
Qed.

(** C6, as amended. When the first hyphen-delimited segment of the region
    is not empty, resolving with region [r] and framework [f] gives the
    same URI or the same error as resolving with that segment and the
    lower-cased framework; resolving with "us-east1" is resolving with
    "us". *)
Theorem resolve_normalized_arguments
    (region framework version accelerator : string) :
  Py.split_first "-" region <> "" ->
  resolve framework version (Some region) accelerator
  = resolve (Py.lower framework) version
      (Some (Py.split_first "-" region)) accelerator
  /\ resolve framework version (Some "us-east1") accelerator
     = resolve framework version (Some "us") accelerator.
Proof.
  intro Hseg. split; [|reflexivity].
  assert (Hreg : region <> "").
  { intro E. apply Hseg. now rewrite E. }
  unfold get_prebuilt_prediction_container_uri, normalize_region,
    normalize_framework.
  rewrite (PyFacts.or_str_truthy _ location Hreg),
    (PyFacts.or_str_truthy _ location Hseg),
    PyFacts.split_first_idem, PyFacts.lower_idem.
  reflexivity.
Qed.

(** C7. In a table none of whose levels is empty, the walk stops at the
    first level whose key is absent: the error raised lists the keys of
    that level and no later level is looked up. For a present region and
    an absent framework the message enumerates the frameworks of the
    region, and neither accelerator nor version is consulted. *)
Theorem walk_fails_fast
    (framework version : string) (region : option string)
    (accelerator : string) :
  populated URI_MAP = true ->
  let r := region_of region in
  let f := normalize_framework framework in
  (forall fm,
      Py.get URI_MAP r = Some fm -> Py.get fm f = None ->
      walk URI_MAP docs location framework version region accelerator
      = ([(REGION, r); (FRAMEWORK, f)],
         Raise (framework_error docs f fm))
      /\ resolve framework version region accelerator
         = Raise (ValueError
                    ("No containers found for framework `" ++ f ++
                     "`. Supported frameworks are " ++
                     Py.join ", " (Py.keys fm) ++ " " ++
                     DOCS_URI_MESSAGE docs)))
  /\ (Py.get URI_MAP r = None ->
      walk URI_MAP docs location framework version region accelerator
      = ([(REGION, r)], Raise (region_error URI_MAP docs r)))
  /\ (forall fm am,
         Py.get URI_MAP r = Some fm -> Py.get fm f = Some am ->
         Py.get am accelerator = None ->
         walk URI_MAP docs location framework version region accelerator
         = ([(REGION, r); (FRAMEWORK, f); (ACCELERATOR, accelerator)],
            Raise (accelerator_error docs f accelerator am)))
  /\ (forall fm am vm,
         Py.get URI_MAP r = Some fm -> Py.get fm f = Some am ->
         Py.get am accelerator = Some vm -> Py.get vm version = None ->
         walk URI_MAP docs location framework version region accelerator
         = ([(REGION, r); (FRAMEWORK, f); (ACCELERATOR, accelerator);
             (VERSION, version)],
            Raise (version_error docs f version accelerator vm))).
Proof.
  intros Hp r f.
  assert (Hfm : forall fm, Py.get URI_MAP r = Some fm ->
                fm <> [] /\
                forall am, Py.get fm f = Some am ->
                am <> [] /\
                forall vm, Py.get am accelerator = Some vm -> vm <> []).
  { intros fm Hr.
    pose proof (PyFacts.get_forallb _ _ _ _ Hp Hr) as H. simpl in H.
    apply andb_prop in H as [H1 H2]. split; [now destruct fm|].
    intros am Hf.
    pose proof (PyFacts.get_forallb _ _ _ _ H2 Hf) as H. simpl in H.
    apply andb_prop in H as [H3 H4]. split; [now destruct am|].
    intros vm Ha.
    pose proof (PyFacts.get_forallb _ _ _ _ H4 Ha) as H. simpl in H.
    now destruct vm. }
  repeat split.
  - destruct (Hfm fm H) as [Hne _].
    unfold walk. fold r f. rewrite H.
    destruct fm; [now elim Hne|]. now rewrite H0.
  - destruct (Hfm fm H) as [Hne _].
    unfold get_prebuilt_prediction_container_uri. fold r f. rewrite H.
    destruct fm; [now elim Hne|]. now rewrite H0.
  - intro Hr. unfold walk. fold r f. now rewrite Hr.
  - intros fm am Hr Hf Ha.
    destruct (Hfm fm Hr) as [Hne Ham]. destruct (Ham am Hf) as [Hne' _].
    unfold walk. fold r f. rewrite Hr.
    destruct fm; [now elim Hne|]. rewrite Hf.
    destruct am; [now elim Hne'|]. now rewrite Ha.
  - intros fm am vm Hr Hf Ha Hv.
    destruct (Hfm fm Hr) as [Hne Ham]. destruct (Ham am Hf) as [Hne' Hvm].
    specialize (Hvm vm Ha).
    unfold walk. fold r f. rewrite Hr.
    destruct fm; [now elim Hne|]. rewrite Hf.
    destruct am; [now elim Hne'|]. rewrite Ha.
    destruct vm; [now elim Hvm|]. now rewrite Hv.
Qed.

(** C10. Whatever the table and the arguments, the resolver raises
    [ValueError] or returns a non-empty string. A falsy value under a key,
    an empty mapping or an empty URI, raises the error of that level just
    as an absent key does. *)
Theorem resolve_error_or_nonempty
    (framework version : string) (region : option string)
    (accelerator : string) :
  let r := region_of region in
  let f := normalize_framework framework in
  let res := resolve framework version region accelerator in
  ((exists msg, res = Raise (ValueError msg))
   \/ (exists uri, res = Ok uri /\ uri <> ""))
  /\ (Py.get URI_MAP r = None \/ Py.get URI_MAP r = Some [] ->
      res = Raise (region_error URI_MAP docs r))
  /\ (forall fm,
         Py.get URI_MAP r = Some fm -> fm <> [] ->
         Py.get fm f = None \/ Py.get fm f = Some [] ->
         res = Raise (framework_error docs f fm))
  /\ (forall fm am,
         Py.get URI_MAP r = Some fm -> fm <> [] ->
         Py.get fm f = Some am -> am <> [] ->
         Py.get am accelerator = None \/ Py.get am accelerator = Some [] ->
         res = Raise (accelerator_error docs f accelerator am))
  /\ (forall fm am vm,
         Py.get URI_MAP r = Some fm -> fm <> [] ->
         Py.get fm f = Some am -> am <> [] ->
         Py.get am accelerator = Some vm -> vm <> [] ->
         Py.get vm version = None \/ Py.get vm version = Some "" ->
         res = Raise (version_error docs f version accelerator vm)).
Proof.
  intros r f res. subst res.
  unfold get_prebuilt_prediction_container_uri. fold r f.
  split; [|split; [|split; [|split]]].
  - destruct (Py.get URI_MAP r) as [[|p fm]|];
      try (left; eexists; reflexivity).
    destruct (Py.get (p :: fm) f) as [[|q am]|];
      try (left; eexists; reflexivity).
    destruct (Py.get (q :: am) accelerator) as [[|t vm]|];
      try (left; eexists; reflexivity).
    destruct (Py.get (t :: vm) version) as [[|c uri]|];
      try (left; eexists; reflexivity).
    right. eexists. split; [reflexivity|discriminate].
  - intros [-> | ->]; reflexivity.
  - intros fm -> Hne [Hf | Hf];
      (destruct fm; [now elim Hne|]); now rewrite Hf.
  - intros fm am -> Hne -> Hne' [Ha | Ha];
      (destruct fm; [now elim Hne|]); (destruct am; [now elim Hne'|]);
      now rewrite Ha.
  - intros fm am vm -> Hne -> Hne' -> Hne'' [Hv | Hv];
      (destruct fm; [now elim Hne|]); (destruct am; [now elim Hne'|]);
      (destruct vm; [now elim Hne''|]); now rewrite Hv.
Qed.

End WithTable.

(** With no region given, the ambient location decides. *)
Example resolve_default_region :
  get_prebuilt_prediction_container_uri example_map example_docs_url
    "europe-west4" "tensorflow" "2.6" None "cpu"
  = Ok "europe-docker.pkg.dev/vertex-ai/prediction/tf2-cpu.2-6:latest".
Proof. reflexivity. Qed.

Example resolve_unknown_version :
  get_prebuilt_prediction_container_uri example_map example_docs_url
    "us-central1" "sklearn" "1.0" (Some "us-west1") "cpu"
  = Raise (ValueError
             ("No serving container for `sklearn` version `1.0` " ++
              "with accelerator `cpu` found. Supported versions " ++
              "include 0.24. " ++
              "See https://cloud.google.com/vertex-ai/docs/predictions/pre-built-containers " ++
              "for complete list of supported containers")).
Proof. reflexivity. Qed.

(** The example table has the shape the theorems ask for. *)
Lemma example_map_normal_keys : normal_keys example_map = true.
Proof. reflexivity. Qed.

Lemma example_map_populated : populated example_map = true.
Proof. reflexivity. Qed.

Lemma resolve_present_quadruple_witness :
  get_prebuilt_prediction_container_uri example_map example_docs_url
    "us-central1" "tensorflow" "2.6" (Some "us") "gpu"
  = Ok "us-docker.pkg.dev/vertex-ai/prediction/tf2-gpu.2-6:latest".
Proof.
  eapply (resolve_present_quadruple example_map example_docs_url
            "us-central1" "us" "tensorflow" "gpu" "2.6");
    solve [reflexivity | discriminate].
Defined.

(** C6 fails at a region that begins with a hyphen: its first segment is
    empty, and an empty region stands for the ambient location. *)
Lemma resolve_hyphen_led_region_counterexample :
  "-east1" <> ""
  /\ get_prebuilt_prediction_container_uri example_map example_docs_url
       "us-central1" "tensorflow" "2.6" (Some "-east1") "cpu"
     <> get_prebuilt_prediction_container_uri example_map example_docs_url
          "us-central1" (Py.lower "tensorflow") "2.6"
          (Some (Py.split_first "-" "-east1")) "cpu".
Proof. split; discriminate. Qed.

Lemma resolve_normalized_arguments_witness :
  get_prebuilt_prediction_container_uri example_map example_docs_url
    "us-central1" "TensorFlow" "2.6" (Some "europe-west4") "cpu"
  = get_prebuilt_prediction_container_uri example_map example_docs_url
      "us-central1" (Py.lower "TensorFlow") "2.6"
      (Some (Py.split_first "-" "europe-west4")) "cpu".
Proof.
  apply (resolve_normalized_arguments example_map example_docs_url
           "us-central1" "europe-west4" "TensorFlow" "2.6" "cpu").
  discriminate.
Defined.

Lemma walk_fails_fast_witness :
  walk example_map example_docs_url "us-central1" "PyTorch" "1.9"
    (Some "us-east1") "cpu"
  = ([(REGION, "us"); (FRAMEWORK, "pytorch")],
     Raise (ValueError
              ("No containers found for framework `pytorch`. " ++
               "Supported frameworks are tensorflow, sklearn " ++
               "See https://cloud.google.com/vertex-ai/docs/predictions/pre-built-containers " ++
               "for complete list of supported containers")))
  /\ is_value_error
       (get_prebuilt_prediction_container_uri example_map example_docs_url
          "us-central1" "PyTorch" "1.9" (Some "us-east1") "cpu") = true.
Proof.
  pose proof (walk_fails_fast example_map example_docs_url "us-central1"
                "PyTorch" "1.9" (Some "us-east1") "cpu" eq_refl) as H.
  cbv zeta in H. destruct H as [H _].
  edestruct H as [Hw Hr]; [reflexivity | reflexivity | ].
  split; [exact Hw | now rewrite Hr].
Defined.

End ContainerUriFacts.

(** ** The dataset controller *)

Module DatasetsFacts.

Import Datasets.

Lemma contains_In (t : list string) (x : string) :
  Py.contains t x = true <-> In x t.
Proof.
  unfold Py.contains. rewrite existsb_exists. split.
  - intros (y & Hy & E). apply String.eqb_eq in E. now subst.
  - intro H. exists x. split; [exact H|apply String.eqb_refl].
Qed.

Lemma contains_not_In (t : list string) (x : string) :
  Py.contains t x = false <-> ~ In x t.
Proof.
  rewrite <- contains_In. now destruct (Py.contains t x).
Qed.

Section WithAmbient.

Variable global_config : Config.
Variable _instantiate_client :
  option string -> option string -> DatasetServiceClient.

Local Abbreviation client_for location credentials :=
  (_instantiate_client
     (or_else location (config_location global_config))
     (or_else credentials (config_credentials global_config))).

Local Abbreviation handle_of gca project location credentials :=
  {| _gca_resource := Some gca;
     project := or_else project (config_project global_config);
     location := or_else location (config_location global_config);
     credentials := or_else credentials (config_credentials global_config);
     api_client := client_for location credentials;
     _latest_future := None |}.

(** One run of the constructor: one get-dataset request, then the check
    of the schema URI. *)
Lemma init_run (cls : DatasetClass) (dataset_name : string)
    (project location credentials : option string) (h : history) :
  __init__ global_config _instantiate_client cls dataset_name project
    location credentials h
  = (match get_dataset (client_for location credentials) h dataset_name
     with
     | Raise e => Raise e
     | Ok gca =>
         match _supported_metadata_schema_uris cls with
         | Some ((_ :: _) as supported) =>
             if Py.contains supported (metadata_schema_uri gca)
             then Ok (handle_of gca project location credentials)
             else Raise (mismatch_error cls (name gca))
         | _ => Ok (handle_of gca project location credentials)
         end
     end,
     (h ++ [GetDataset dataset_name])%list).
Proof.
  unfold __init__, _get_gca_resource, _validate_metadata_schema_uri,
    request, bind, ret, raise, metadata_schema_uri_of, resource_name.
  destruct (get_dataset _ h dataset_name) as [gca|e]; [|reflexivity].
  destruct (_supported_metadata_schema_uris cls) as [[|u t]|];
    try reflexivity.
  cbn [_gca_resource]. unfold ret.
  now destruct (Py.contains (u :: t) (metadata_schema_uri gca)).
Qed.

(** C5. When the resource named is fetched: if the class declares a
    non-empty set of supported schema URIs and the URI of the fetched
    resource is not in it, construction fails with the type-mismatch
    [ValueError]; if the set is unset or empty, or the URI is in it,
    construction succeeds with a handle on the fetched resource. *)
Theorem init_validates_metadata_schema_uri (cls : DatasetClass)
    (dataset_name : string) (project location credentials : option string)
    (h : history) (gca : GcaDataset) :
  get_dataset (client_for location credentials) h dataset_name = Ok gca ->
  let run := __init__ global_config _instantiate_client cls dataset_name
               project location credentials h in
  (forall supported,
      _supported_metadata_schema_uris cls = Some supported ->
      supported <> [] ->
      ~ In (metadata_schema_uri gca) supported ->
      fst run = Raise (mismatch_error cls (name gca)))
  /\ (_supported_metadata_schema_uris cls = None
      \/ _supported_metadata_schema_uris cls = Some []
      \/ (exists supported,
             _supported_metadata_schema_uris cls = Some supported
             /\ In (metadata_schema_uri gca) supported) ->
      exists self,
        fst run = Ok self /\ _gca_resource self = Some gca
        /\ _latest_future self = None).
Proof.
  intros Hget run. subst run. rewrite init_run, Hget. cbn [fst].
  split.
  - intros supported -> Hne Hnot.
    apply contains_not_In in Hnot.
    destruct supported; [now elim Hne|]. now rewrite Hnot.
  - intros [-> | [-> | (supported & -> & Hin)]];
      try (eexists; repeat split; reflexivity).
    apply contains_In in Hin.
    destruct supported; [discriminate Hin|]. rewrite Hin.
    eexists. repeat split; reflexivity.
Qed.

(** The constructor adds its one request to the history; a handle it
    returns holds the fetched resource and has nothing pending. *)
Lemma init_events (cls : DatasetClass) (dataset_name : string)
    (project location credentials : option string) (h : history) :
  exists r,
    __init__ global_config _instantiate_client cls dataset_name project
      location credentials h
    = (r, (h ++ [GetDataset dataset_name])%list)
    /\ forall self, r = Ok self ->
       exists gca, _gca_resource self = Some gca
                   /\ _latest_future self = None.
Proof.
  rewrite init_run. eexists. split; [reflexivity|].
  intros self.
  destruct (get_dataset _ h dataset_name) as [gca|e]; [|discriminate].
  destruct (_supported_metadata_schema_uris cls) as [[|u t]|];
    try (intros [= <-]; now exists gca).
  destruct (Py.contains _ _); [|discriminate].
  intros [= <-]. now exists gca.
Qed.

Local Abbreviation create_request parent display_name metadata_schema_uri
  datasource request_metadata :=
  (CreateDataset parent
     {| name := "";
        display_name := display_name;
        metadata_schema_uri := metadata_schema_uri;
        metadata := dataset_metadata datasource |}
     request_metadata).

(** A run that raised: the events so far, no handle, no import. *)
Ltac raised_early :=
  split; [cbn [snd]; rewrite <- ?app_assoc; reflexivity|];
  split; [intros ? [=] | first [discriminate | reflexivity]].

(** One run of the body of [_create_and_import]. *)
Lemma create_and_import_body_events (cls : DatasetClass)
    (api_client : DatasetServiceClient)
    (parent display_name metadata_schema_uri : string)
    (datasource : Datasource)
    (project location credentials : option string)
    (request_metadata : list (string * string)) (h : history) :
  let run := _create_and_import_body global_config _instantiate_client
               cls api_client parent display_name metadata_schema_uri
               datasource project location credentials request_metadata
               h in
  exists events,
    snd run = (h ++ events)%list
    /\ (forall self, fst run = Ok self ->
        exists create_lro created gca import_operation,
          create_dataset api_client h parent
            {| name := "";
               display_name := display_name;
               metadata_schema_uri := metadata_schema_uri;
               metadata := dataset_metadata datasource |}
            request_metadata = Ok create_lro
          /\ outcome create_lro = Ok created
          /\ _gca_resource self = Some gca
          /\ _latest_future self = None
          /\ events
             = (create_request parent display_name metadata_schema_uri
                  datasource request_metadata
                :: OperationDone (operation_name create_lro)
                :: GetDataset (name created)
                :: import_events datasource (name gca) import_operation))
    /\ (isinstance_DatasourceImportable datasource = false ->
        existsb is_import_request events = false).
Proof.
  intro run. subst run.
  unfold _create_and_import_body, _create, bind, request, result_of.
  destruct (create_dataset api_client h parent _ request_metadata)
    as [lro|e].
  2:{ eexists [_]. raised_early. }
  destruct (outcome lro) as [created|e] eqn:Hout.
  2:{ eexists [_; _]. raised_early. }
  destruct (init_events cls (name created) project location credentials
              ((h ++ [create_request parent display_name
                        metadata_schema_uri datasource request_metadata])
                 ++ [OperationDone (operation_name lro)])%list)
    as (r & Hrun & Hok).
  rewrite Hrun. destruct r as [self|e].
  2:{ eexists [_; _; _]. raised_early. }
  destruct (Hok self eq_refl) as (gca & Hgca & Hfut).
  destruct datasource as [m|m import_data_config].
  - eexists [_; _; _]. unfold ret.
    split; [cbn [snd]; rewrite <- !app_assoc; reflexivity|].
    split; [|reflexivity].
    intros self' [= <-].
    exists lro, created, gca, "". now repeat split.
  - unfold _import, resource_name, bind, request, ret.
    rewrite Hgca.
    destruct (import_data _ _ (name gca) _)
      as [import_lro|e].
    2:{ eexists [_; _; _; _]. raised_early. }
    destruct (outcome import_lro) as [[]|e].
    2:{ eexists [_; _; _; _; _]. raised_early. }
    eexists [_; _; _; _; _].
    split; [cbn [snd]; rewrite <- !app_assoc; reflexivity|].
    split; [|discriminate].
    intros self' [= <-].
    exists lro, created, gca, (operation_name import_lro).
    now repeat split.
Qed.

(** A run of the body that returns: what the gateway answered at each
    step, and the history the answers were given on. *)
Lemma create_and_import_body_returns (cls : DatasetClass)
    (api_client : DatasetServiceClient)
    (parent display_name metadata_schema_uri : string)
    (datasource : Datasource)
    (project location credentials : option string)
    (request_metadata : list (string * string)) (h : history)
    (self : Dataset) :
  let run := _create_and_import_body global_config _instantiate_client
               cls api_client parent display_name metadata_schema_uri
               datasource project location credentials request_metadata
               h in
  let sent := create_request parent display_name metadata_schema_uri
                datasource request_metadata in
  fst run = Ok self ->
  exists create_lro created gca,
    create_dataset api_client h parent
      {| name := "";
         display_name := display_name;
         metadata_schema_uri := metadata_schema_uri;
         metadata := dataset_metadata datasource |}
      request_metadata = Ok create_lro
    /\ outcome create_lro = Ok created
    /\ get_dataset (Datasets.api_client self)
         (h ++ [sent; OperationDone (operation_name create_lro)])%list
         (name created) = Ok gca
    /\ _gca_resource self = Some gca
    /\ _latest_future self = None
    /\ match datasource with
       | DatasourceNonImportable _ =>
           snd run
           = (h ++ [sent; OperationDone (operation_name create_lro);
                    GetDataset (name created)])%list
       | DatasourceImportable _ import_data_config =>
           exists import_lro,
             import_data (Datasets.api_client self)
               (h ++ [sent; OperationDone (operation_name create_lro);
                      GetDataset (name created)])%list
               (name gca) [import_data_config] = Ok import_lro
             /\ outcome import_lro = Ok tt
             /\ snd run
                = (h ++ [sent; OperationDone (operation_name create_lro);
                         GetDataset (name created);
                         ImportData (name gca) [import_data_config];
                         OperationDone (operation_name import_lro)])%list
       end.
Proof.
  intros run sent. subst run sent.
  destruct (_create_and_import_body _ _ _ _ _ _ _ _ _ _ _ _ h)
    as [r final] eqn:Hrun.
  cbn [fst snd]. intros ->. revert Hrun.
  unfold _create_and_import_body, _create, bind, request, result_of.
  destruct (create_dataset api_client h parent _ request_metadata)
    as [lro|e] eqn:Hcreate; [|discriminate].
  destruct (outcome lro) as [created|e] eqn:Hout; [|discriminate].
  rewrite <- !app_assoc. cbn [app].
  rewrite init_run.
  destruct (get_dataset _ _ (name created)) as [gca|e] eqn:Hget;
    [|discriminate].
  assert (Hcheck :
            match _supported_metadata_schema_uris cls with
            | Some ((_ :: _) as supported) =>
                if Py.contains supported (Datasets.metadata_schema_uri gca)
                then Ok (handle_of gca project location credentials)
                else Raise (mismatch_error cls (name gca))
            | _ => Ok (handle_of gca project location credentials)
            end = Ok (handle_of gca project location credentials)
            \/ exists e,
                match _supported_metadata_schema_uris cls with
                | Some ((_ :: _) as supported) =>
                    if Py.contains supported
                         (Datasets.metadata_schema_uri gca)
                    then Ok (handle_of gca project location credentials)
                    else Raise (mismatch_error cls (name gca))
                | _ => Ok (handle_of gca project location credentials)
                end = Raise e).
  { destruct (_supported_metadata_schema_uris cls) as [[|u t]|];
      try (now left).
    destruct (Py.contains _ _); [now left|right; now eexists]. }
  destruct Hcheck as [-> | (e & ->)]; [|discriminate].
  destruct datasource as [m|m import_data_config].
  - unfold ret. intros [= <- <-].
    exists lro, created, gca. rewrite <- !app_assoc.
    now repeat split.
  - unfold _import, resource_name, bind, request, ret.
    cbn [_gca_resource Datasets.api_client].
    destruct (import_data _ _ (name gca) [import_data_config])
      as [import_lro|e] eqn:Himport; [|discriminate].
    destruct (outcome import_lro) as [[]|e] eqn:Himported; [|discriminate].
    intros [= <- <-].
    exists lro, created, gca. cbn [Datasets.api_client].
    rewrite <- !app_assoc in *. cbn [app] in *.
    split; [reflexivity|]. split; [exact Hout|]. split; [exact Hget|].
    split; [reflexivity|]. split; [reflexivity|].
    exists import_lro. now repeat split.
Qed.

(** C1. A call of [create] with [sync=True] that returns has, by then,
    sent the create request the gateway accepted and seen its operation
    complete with the created dataset, fetched that dataset by its name
    and, exactly when the datasource built from the source fields is a
    [DatasourceImportable], sent through the handle's client an import
    request for the fetched resource, which the gateway accepted, and seen
    its operation complete. Whether the call returns or raises, it sends
    an import request only for an importable datasource. *)
Theorem create_sync_completes_before_returning (cls : DatasetClass)
    (display_name metadata_schema_uri : string)
    (gcs_source : option GcsArg) (bq_source import_schema_uri : option string)
    (data_item_labels : option (Py.dict string))
    (project location credentials : option string)
    (request_metadata : list (string * string)) (h : history) :
  let run := create global_config _instantiate_client cls display_name
               metadata_schema_uri gcs_source bq_source import_schema_uri
               data_item_labels project location credentials
               request_metadata true h in
  (forall self, fst run = Ok self ->
   exists datasource create_lro created gca,
     let sent := create_request
                   (common_location_path global_config project location)
                   display_name metadata_schema_uri datasource
                   request_metadata in
     let created_so_far :=
       (h ++ [sent; OperationDone (operation_name create_lro)])%list in
     let fetched :=
       (created_so_far ++ [GetDataset (name created)])%list in
     create_datasource metadata_schema_uri import_schema_uri gcs_source
       bq_source data_item_labels = Ok datasource
     /\ create_dataset (_instantiate_client location credentials) h
          (common_location_path global_config project location)
          {| name := "";
             display_name := display_name;
             metadata_schema_uri := metadata_schema_uri;
             metadata := dataset_metadata datasource |}
          request_metadata = Ok create_lro
     /\ outcome create_lro = Ok created
     /\ get_dataset (api_client self) created_so_far (name created)
        = Ok gca
     /\ _gca_resource self = Some gca
     /\ _latest_future self = None
     /\ match datasource with
        | DatasourceNonImportable _ => snd run = fetched
        | DatasourceImportable _ import_data_config =>
            exists import_lro,
              import_data (api_client self) fetched (name gca)
                [import_data_config] = Ok import_lro
              /\ outcome import_lro = Ok tt
              /\ snd run
                 = (fetched ++
                    [ImportData (name gca) [import_data_config];
                     OperationDone (operation_name import_lro)])%list
        end)
  /\ (exists events,
         snd run = (h ++ events)%list
         /\ (existsb is_import_request events = true ->
             exists datasource,
               create_datasource metadata_schema_uri import_schema_uri
                 gcs_source bq_source data_item_labels = Ok datasource
               /\ isinstance_DatasourceImportable datasource = true)).
Proof.
  intro run. subst run.
  unfold create, _create_and_import, optional_sync, bind, lift.
  destruct (validate_display_name display_name) as [[]|e].
  2:{ split; [intros ? [=]|].
      exists []. rewrite app_nil_r. split; [reflexivity|discriminate]. }
  destruct (create_datasource _ _ _ _ _) as [datasource|e].
  2:{ split; [intros ? [=]|].
      exists []. rewrite app_nil_r. split; [reflexivity|discriminate]. }
  split.
  - intros self Hself.
    destruct (create_and_import_body_returns cls
                (_instantiate_client location credentials)
                (common_location_path global_config project location)
                display_name metadata_schema_uri datasource
                (or_else project (config_project global_config))
                (or_else location (config_location global_config))
                (or_else credentials (config_credentials global_config))
                request_metadata h self Hself)
      as (lro & created & gca & Hlro & Hout & Hget & Hgca & Hfut & Hrun).
    exists datasource, lro, created, gca. cbv zeta.
    split; [reflexivity|]. split; [exact Hlro|]. split; [exact Hout|].
    split; [exact Hget|]. split; [exact Hgca|]. split; [exact Hfut|].
    destruct datasource as [m|m import_data_config].
    + rewrite Hrun. now rewrite <- !app_assoc.
    + destruct Hrun as (import_lro & Himport & Himported & Hrun).
      exists import_lro. rewrite <- !app_assoc. cbn [app].
      split; [exact Himport|]. split; [exact Himported|exact Hrun].
  - destruct (create_and_import_body_events cls
                (_instantiate_client location credentials)
                (common_location_path global_config project location)
                display_name metadata_schema_uri datasource
                (or_else project (config_project global_config))
                (or_else location (config_location global_config))
                (or_else credentials (config_credentials global_config))
                request_metadata h) as (events & Hev & _ & Hnon).
    cbv zeta in Hev. exists events. split; [exact Hev|].
    intro Himp. exists datasource. split; [reflexivity|].
    destruct (isinstance_DatasourceImportable datasource); [reflexivity|].
    rewrite (Hnon eq_refl) in Himp. discriminate.
Qed.

(** C4. A call of [create] whose source fields are contradictory, or lack
    a required URI, raises [ValueError] and leaves the history as it was:
    no request reaches the gateway, in either mode. When the display name
    is valid the error is the one datasource construction raises. *)
Theorem create_rejects_bad_source_fields (cls : DatasetClass)
    (display_name metadata_schema_uri : string)
    (gcs_source : option GcsArg) (bq_source import_schema_uri : option string)
    (data_item_labels : option (Py.dict string))
    (project location credentials : option string)
    (request_metadata : list (string * string)) (sync : bool)
    (h : history) :
  contradictory_sources gcs_source bq_source = true
  \/ required_uri_missing import_schema_uri gcs_source bq_source = true ->
  let run := create global_config _instantiate_client cls display_name
               metadata_schema_uri gcs_source bq_source import_schema_uri
               data_item_labels project location credentials
               request_metadata sync h in
  snd run = h
  /\ is_value_error (fst run) = true
  /\ (validate_display_name display_name = Ok tt ->
      exists msg,
        create_datasource metadata_schema_uri import_schema_uri gcs_source
          bq_source data_item_labels = Raise (ValueError msg)
        /\ fst run = Raise (ValueError msg)).
Proof.
  intros Hbad run. subst run.
  assert (Hds : exists msg,
             create_datasource metadata_schema_uri import_schema_uri
               gcs_source bq_source data_item_labels
             = Raise (ValueError msg)).
  { unfold create_datasource.
    destruct (contradictory_sources gcs_source bq_source);
      [eexists; reflexivity|].
    destruct Hbad as [Hbad | Hbad]; [discriminate Hbad|].
    rewrite Hbad. eexists; reflexivity. }
  destruct Hds as (msg & Hds).
  unfold create, bind, lift. rewrite Hds.
  unfold validate_display_name.
  destruct (Nat.eqb (String.length display_name) 0).
  { repeat split; intros [=]. }
  destruct (Nat.ltb 128 (String.length display_name)).
  { repeat split; intros [=]. }
  repeat split. intros _. now exists msg.
Qed.

End WithAmbient.

Lemma create_sync_completes_before_returning_witness :
  exists self,
    fst (create example_config example_instantiate_client dataset_class
           "flowers" image_schema (Some (GcsStr "gs://my-bucket/flowers.csv"))
           None (Some "gs://my-bucket/import_schema.yaml") None
           None None None [] true [])
    = Ok self
    /\ exists datasource create_lro created gca,
         create_datasource image_schema
           (Some "gs://my-bucket/import_schema.yaml")
           (Some (GcsStr "gs://my-bucket/flowers.csv")) None None
         = Ok datasource
         /\ outcome create_lro = Ok created
         /\ get_dataset (api_client self)
              [CreateDataset "projects/my-prj/locations/us-central1"
                 {| name := ""; display_name := "flowers";
                    metadata_schema_uri := image_schema;
                    metadata := dataset_metadata datasource |} [];
               OperationDone (operation_name create_lro)]
              (name created) = Ok gca
         /\ _gca_resource self = Some gca
         /\ match datasource with
            | DatasourceNonImportable _ => False
            | DatasourceImportable _ import_data_config =>
                exists import_lro,
                  import_data (api_client self)
                    [CreateDataset "projects/my-prj/locations/us-central1"
                       {| name := ""; display_name := "flowers";
                          metadata_schema_uri := image_schema;
                          metadata := dataset_metadata datasource |} [];
                     OperationDone (operation_name create_lro);
                     GetDataset (name created)]
                    (name gca) [import_data_config] = Ok import_lro
                  /\ outcome import_lro = Ok tt
                  /\ snd (create example_config example_instantiate_client
                            dataset_class "flowers" image_schema
                            (Some (GcsStr "gs://my-bucket/flowers.csv"))
                            None (Some "gs://my-bucket/import_schema.yaml")
                            None None None None [] true [])
                     = [CreateDataset
                          "projects/my-prj/locations/us-central1"
                          {| name := ""; display_name := "flowers";
                             metadata_schema_uri := image_schema;
                             metadata := dataset_metadata datasource |} [];
                        OperationDone (operation_name create_lro);
                        GetDataset (name created);
                        ImportData (name gca) [import_data_config];
                        OperationDone (operation_name import_lro)]
            end.
Proof.
  eexists. split; [reflexivity|].
  destruct (proj1 (create_sync_completes_before_returning example_config
                     example_instantiate_client dataset_class
                     "flowers" image_schema
                     (Some (GcsStr "gs://my-bucket/flowers.csv"))
                     None (Some "gs://my-bucket/import_schema.yaml") None
                     None None None [] []) _ eq_refl)
    as (datasource & lro & created & gca & Hds & Hlro & Hout & Hget & Hgca
        & Hfut & Hrun).
  exists datasource, lro, created, gca.
  split; [exact Hds|]. split; [exact Hout|]. split; [exact Hget|].
  split; [exact Hgca|].
  destruct datasource as [m|m import_data_config];
    [discriminate Hds|exact Hrun].
Defined.

Lemma create_rejects_bad_source_fields_witness :
  (snd (create example_config example_instantiate_client dataset_class
          "flowers" tabular_schema
          (Some (GcsStr "gs://my-bucket/flowers.csv"))
          (Some "bq://my-prj.flowers.table") None None
          None None None [] true [])
   = []
   /\ is_value_error
        (fst (create example_config example_instantiate_client
                dataset_class "flowers" tabular_schema
                (Some (GcsStr "gs://my-bucket/flowers.csv"))
                (Some "bq://my-prj.flowers.table") None None
                None None None [] true []))
      = true)
  /\ (snd (create example_config example_instantiate_client dataset_class
             "flowers" image_schema None None
             (Some "gs://my-bucket/import_schema.yaml") None
             None None None [] false [])
      = []
      /\ is_value_error
           (fst (create example_config example_instantiate_client
                   dataset_class "flowers" image_schema None None
                   (Some "gs://my-bucket/import_schema.yaml") None
                   None None None [] false []))
         = true).
Proof.
  split.
  - destruct (create_rejects_bad_source_fields example_config
                example_instantiate_client dataset_class
                "flowers" tabular_schema
                (Some (GcsStr "gs://my-bucket/flowers.csv"))
                (Some "bq://my-prj.flowers.table") None None
                None None None [] true [] (or_introl eq_refl))
      as (Hh & Herr & _).
    split; [exact Hh | exact Herr].
  - destruct (create_rejects_bad_source_fields example_config
                example_instantiate_client dataset_class
                "flowers" image_schema None None
                (Some "gs://my-bucket/import_schema.yaml") None
                None None None [] false [] (or_intror eq_refl))
      as (Hh & Herr & _).
    split; [exact Hh | exact Herr].
Defined.

Lemma init_validates_metadata_schema_uri_witness :
  fst (__init__ example_config example_instantiate_client
         tabular_dataset_class
         "projects/my-prj/locations/us-central1/datasets/1"
         None None None [])
  = Raise (ValueError
             ("TabularDataset class can not be used to retrieve " ++
              "dataset resource " ++
              "projects/my-prj/locations/us-central1/datasets/1" ++
              ", check the dataset type"))
  /\ exists self,
       fst (__init__ example_config example_instantiate_client
              image_dataset_class
              "projects/my-prj/locations/us-central1/datasets/1"
              None None None [])
       = Ok self
       /\ _gca_resource self = Some example_resource
       /\ _latest_future self = None.
Proof.
  split.
  - refine (proj1 (init_validates_metadata_schema_uri example_config
                     example_instantiate_client tabular_dataset_class
                     "projects/my-prj/locations/us-central1/datasets/1"
                     None None None [] example_resource eq_refl)
              [tabular_schema] eq_refl _ _).
    + discriminate.
    + intros [E | []]. discriminate E.
  - apply (proj2 (init_validates_metadata_schema_uri example_config
                    example_instantiate_client image_dataset_class
                    "projects/my-prj/locations/us-central1/datasets/1"
                    None None None [] example_resource eq_refl)).
    right. right. exists [image_schema]. split; [reflexivity|].
    now left.
Defined.

Local Abbreviation export_config_for output_dir :=
  {| gcs_destination := {| output_uri_prefix := output_dir |} |}.

(** One run of [export_data]: the wait, then the request, then the wait
    for its operation. *)
Lemma export_data_run (self : Dataset) (output_dir : string) (h : history) :
  export_data self output_dir h
  = match wait self h with
    | (Raise e, h1) => (Raise e, h1)
    | (Ok self', h1) =>
        match _gca_resource self' with
        | None =>
            (Raise (AttributeError
                      "'Dataset' object has no attribute '_gca_resource'"),
             h1)
        | Some gca =>
            match export_data_rpc (api_client self') h1 (name gca)
                    (export_config_for output_dir)
            with
            | Raise e =>
                (Raise e,
                 (h1 ++ [ExportData (name gca)
                           (export_config_for output_dir)])%list)
            | Ok lro =>
                (match outcome lro with
                 | Ok response => Ok (exported_files response)
                 | Raise e => Raise e
                 end,
                 (h1 ++ [ExportData (name gca)
                           (export_config_for output_dir);
                         OperationDone (operation_name lro)])%list)
            end
        end
    end.
Proof.
  unfold export_data, bind.
  destruct (wait self h) as [[self'|e] h1]; [|reflexivity].
  unfold resource_name.
  destruct (_gca_resource self') as [gca|]; [|reflexivity].
  unfold ret, raise, request, result_of.
  destruct (export_data_rpc _ h1 _ _) as [lro|e]; [|reflexivity].
  rewrite <- app_assoc. now destruct (outcome lro).
Qed.

(** C2, as amended. Once the handle has resolved with its resource,
    [export_data] sends exactly one request, an export request whose
    output URI prefix is [output_dir] exactly as it was given, whatever
    its form; when the gateway accepts it and its operation succeeds, the
    exported files are returned. No export request of the call carries
    anything else. *)
Theorem export_data_sends_output_dir_as_given (self : Dataset)
    (output_dir : string) (h : history) :
  let run := export_data self output_dir h in
  let waited := wait self h in
  exists tail,
    snd run = (snd waited ++ tail)%list
    /\ (forall self' gca,
          fst waited = Ok self' -> _gca_resource self' = Some gca ->
          exists tail',
            tail = ExportData (name gca) (export_config_for output_dir)
                   :: tail'
            /\ existsb is_request tail' = false
            /\ forall lro response,
                 export_data_rpc (api_client self') (snd waited) (name gca)
                   (export_config_for output_dir) = Ok lro ->
                 outcome lro = Ok response ->
                 fst run = Ok (exported_files response))
    /\ (forall resource export_config,
          In (ExportData resource export_config) tail ->
          export_config = export_config_for output_dir).
Proof.
  intros run waited. subst run waited. rewrite export_data_run.
  destruct (wait self h) as [[self'|e] h1]; cbn [fst snd].
  2:{ exists []. rewrite app_nil_r. split; [reflexivity|].
      split; [intros ? ? [=] | intros ? ? []]. }
  destruct (_gca_resource self') as [gca|] eqn:Hgca.
  2:{ exists []. rewrite app_nil_r. split; [reflexivity|].
      split; [|intros ? ? []].
      intros self'' gca' [= <-] Hgca'. rewrite Hgca in Hgca'.
      discriminate Hgca'. }
  destruct (export_data_rpc _ h1 _ _) as [lro|e] eqn:Hrpc.
  - eexists [_; _]. split; [reflexivity|]. split.
    + intros self'' gca' [= <-] Hgca'. rewrite Hgca in Hgca'.
      injection Hgca' as <-.
      eexists. split; [reflexivity|]. split; [reflexivity|].
      intros lro' response Hrpc' Hout.
      rewrite Hrpc in Hrpc'. injection Hrpc' as <-. now rewrite Hout.
    + intros resource export_config [[= _ <-] | [[=] | []]]. reflexivity.
  - eexists [_]. split; [reflexivity|]. split.
    + intros self'' gca' [= <-] Hgca'. rewrite Hgca in Hgca'.
      injection Hgca' as <-.
      eexists. split; [reflexivity|]. split; [reflexivity|].
      intros lro' response Hrpc'. rewrite Hrpc in Hrpc'. discriminate.
    + intros resource export_config [[= _ <-] | []]. reflexivity.
Qed.

(** C8. On a handle whose creation is pending, [export_data] first runs
    the pending work to its end: the history it leaves starts with that
    of the resolved handle. If the work failed, its error is raised and
    nothing more is sent; if it produced a resource, the export request
    for that resource comes next, after the resolution. *)
Theorem export_data_waits_for_pending_handle (self : Dataset)
    (output_dir : string) (h : history)
    (future : history -> result Dataset * history) :
  _latest_future self = Some future ->
  let run := export_data self output_dir h in
  let resolved := (snd (future h) ++ [FutureDone])%list in
  exists tail,
    snd run = (resolved ++ tail)%list
    /\ (forall e, fst (future h) = Raise e ->
        fst run = Raise e /\ tail = [])
    /\ (forall obj gca,
          fst (future h) = Ok obj -> _gca_resource obj = Some gca ->
          exists tail',
            tail = ExportData (name gca) (export_config_for output_dir)
                   :: tail'
            /\ existsb is_export_request tail' = false).
Proof.
  intros Hfut run resolved. subst run resolved.
  rewrite export_data_run. unfold wait. rewrite Hfut.
  destruct (future h) as [[obj|e] h1]; cbn [fst snd].
  - cbn [_gca_resource api_client].
    destruct (_gca_resource obj) as [gca|] eqn:Hgca.
    + destruct (export_data_rpc _ _ _ _) as [lro|e].
      * eexists [_; _]. split; [reflexivity|].
        split; [intros ? [=]|].
        intros obj' gca' [= <-] Hgca'. rewrite Hgca in Hgca'.
        injection Hgca' as <-. now eexists.
      * eexists [_]. split; [reflexivity|].
        split; [intros ? [=]|].
        intros obj' gca' [= <-] Hgca'. rewrite Hgca in Hgca'.
        injection Hgca' as <-. now eexists.
    + exists []. rewrite app_nil_r. split; [reflexivity|].
      split; [intros ? [=]|].
      intros obj' gca' [= <-] Hgca'. rewrite Hgca in Hgca'.
      discriminate Hgca'.
  - exists []. rewrite app_nil_r. split; [reflexivity|].
    split; [now intros ? [= <-]|]. intros ? ? [=].
Qed.

(** C2 fails on a directory without trailing separator, sent as it is, and
    on a directory that is no storage URI, sent all the same. *)
Lemma export_data_output_dir_counterexample :
  ~ export_validates_and_normalizes example_handle
      "gs://my-bucket/exports" []
  /\ ~ export_validates_and_normalizes example_handle "exports/" [].
Proof.
  split; intros [Hvalid Hnorm].
  - specialize (Hnorm (name example_resource)
                  (export_config_for "gs://my-bucket/exports")
                  (or_introl eq_refl)).
    discriminate Hnorm.
  - destruct (Hvalid eq_refl) as [Herr _]. discriminate Herr.
Qed.

Lemma export_data_sends_output_dir_as_given_witness :
  exists tail',
    snd (export_data example_handle "gs://my-bucket/exports" [])
    = ExportData (name example_resource)
        (export_config_for "gs://my-bucket/exports") :: tail'
    /\ existsb is_request tail' = false.
Proof.
  destruct (export_data_sends_output_dir_as_given example_handle
              "gs://my-bucket/exports" [])
    as (tail & Hrun & Hsent & _).
  destruct (Hsent example_handle example_resource eq_refl eq_refl)
    as (tail' & Htail & Hreq & _).
  exists tail'. split; [|exact Hreq].
  rewrite Hrun, Htail. reflexivity.
Defined.

Lemma export_data_waits_for_pending_handle_witness :
  exists future tail,
    _latest_future example_pending_handle = Some future
    /\ snd (export_data example_pending_handle "gs://my-bucket/exports/" [])
       = ((snd (future []) ++ [FutureDone]) ++ tail)%list
    /\ (forall e, fst (future []) = Raise e ->
        fst (export_data example_pending_handle
               "gs://my-bucket/exports/" []) = Raise e
        /\ tail = [])
    /\ (forall obj gca,
          fst (future []) = Ok obj -> _gca_resource obj = Some gca ->
          exists tail',
            tail = ExportData (name gca)
                     (export_config_for "gs://my-bucket/exports/")
                   :: tail'
            /\ existsb is_export_request tail' = false).
Proof.
  eexists.
  destruct (export_data_waits_for_pending_handle example_pending_handle
              "gs://my-bucket/exports/" [] _ eq_refl) as (tail & H).
  exists tail. split; [reflexivity|exact H].
Defined.

(** The whole history of that call: creation in the background, the
    resolution, and only then the export. *)
Example export_after_pending_create :
  snd (export_data example_pending_handle "gs://my-bucket/exports/" [])
  = [CreateDataset "projects/my-prj/locations/us-central1"
       {| name := ""; display_name := "flowers";
          metadata_schema_uri := image_schema; metadata := None |} [];
     OperationDone "operations/create-1";
     GetDataset "projects/my-prj/locations/us-central1/datasets/1";
     FutureDone;
     ExportData "projects/my-prj/locations/us-central1/datasets/1"
       (export_config_for "gs://my-bucket/exports/");
     OperationDone "operations/export-1"].
Proof. reflexivity. Qed.

End DatasetsFacts.

(** ** The dataframe serializer *)

Module PandasSerializerFacts.

Import PandasSerializer.

Lemma prefix_of_join (d name : string) :
  Py.startswith (d ++ "/") (path_join d name) = true.
Proof.
  unfold Py.startswith, path_join.
  induction d as [|c d IH]; simpl.
  - now destruct name.
  - destruct (ascii_dec c c) as [_|Hne]; [exact IH|now elim Hne].
Qed.

Lemma get_after_cleanup (p k : string) (l : Py.dict string) :
  Py.startswith p k = true ->
  Py.get (filter (fun f => negb (Py.startswith p (fst f))) l) k = None.
Proof.
  intro Hk. induction l as [|[k' v] l IH]; simpl; [reflexivity|].
  destruct (Py.startswith p k') eqn:Hk'; simpl; [exact IH|].
  destruct (String.eqb k k') eqn:E; [|exact IH].
  apply String.eqb_eq in E. subst k'. congruence.
Qed.

Lemma module_binds_neither_pathlib_nor_storage :
  Py.contains module_globals "pathlib" = false
  /\ Py.contains module_globals "storage" = false
  /\ Py.contains module_globals "extract_bucket_and_prefix_from_gcs_path"
     = false
  /\ Py.contains module_globals "tempfile" = true.
Proof. repeat split. Qed.

Section WithEnvironment.

Variable DataFrame : Type.
Variable csv_text : DataFrame -> string.
Variable mkdtemp : world -> string.
Variable extract_bucket_and_prefix_from_gcs_path :
  string -> string * option string.

Local Abbreviation serialize globals :=
  (_serialize_dataframe globals DataFrame csv_text mkdtemp
     extract_bucket_and_prefix_from_gcs_path).

(** The upload after the [with] block finds no file: the directory went
    with the block. *)
Lemma upload_after_cleanup (bucket blob d name : string) (w : world) :
  upload_from_filename bucket blob (path_join d name)
    {| files := filter (fun f => negb (Py.startswith (d ++ "/") (fst f)))
                  (files w);
       blobs := blobs w |}
  = (Raise (FileNotFoundError
              ("No such file or directory: '" ++ path_join d name ++ "'")),
     {| files := filter (fun f => negb (Py.startswith (d ++ "/") (fst f)))
                   (files w);
        blobs := blobs w |}).
Proof.
  unfold upload_from_filename. cbn [files].
  now rewrite (get_after_cleanup _ _ _ (prefix_of_join d name)).
Qed.

(** C9. Every call of [_serialize_dataframe] in the module as written
    raises the [NameError] for [pathlib], and no blob is added to object
    storage. Whatever names the module namespace binds, no call returns
    and no blob is added: with every name bound, the upload runs after
    the temporary directory is gone and finds no file. *)
Theorem serialize_dataframe_never_stages (artifact_uri : string)
    (obj : DataFrame) (dataset_type : string) (w : world) :
  (fst (serialize module_globals artifact_uri obj dataset_type w)
   = Raise (NameError "name 'pathlib' is not defined")
   /\ blobs (snd (serialize module_globals artifact_uri obj dataset_type w))
      = blobs w)
  /\ (forall globals,
         (forall gcs_path,
             fst (serialize globals artifact_uri obj dataset_type w)
             <> Ok gcs_path)
         /\ blobs (snd (serialize globals artifact_uri obj dataset_type w))
            = blobs w)
  /\ (forall globals,
         forallb (Py.contains globals) names_read = true ->
         fst (serialize globals artifact_uri obj dataset_type w)
         = Raise (FileNotFoundError
                    ("No such file or directory: '" ++
                     path_join (mkdtemp w)
                       ("my_" ++ dataset_type ++ "_dataset.csv") ++ "'"))).
Proof.
  split; [split; reflexivity|].
  split.
  - intro globals.
    unfold _serialize_dataframe, bind, global, with_TemporaryDirectory,
      to_csv, ret, raise.
    destruct (Py.contains globals "tempfile");
      [|split; [discriminate|reflexivity]].
    destruct (Py.contains globals "pathlib");
      [|split; [discriminate|reflexivity]].
    destruct (Py.contains globals
                "extract_bucket_and_prefix_from_gcs_path");
      [|split; [discriminate|reflexivity]].
    destruct (extract_bucket_and_prefix_from_gcs_path artifact_uri)
      as [gcs_bucket gcs_blob_prefix].
    destruct (Py.contains globals "storage");
      [|split; [discriminate|reflexivity]].
    destruct (Py.contains globals "initializer");
      [|split; [discriminate|reflexivity]].
    rewrite (upload_after_cleanup gcs_bucket _ (mkdtemp w) _
               {| files := _ :: files w; blobs := blobs w |}).
    split; [discriminate|reflexivity].
  - intros globals Hall. cbn in Hall.
    repeat (apply andb_prop in Hall as [? Hall]).
    unfold _serialize_dataframe, bind, global, with_TemporaryDirectory,
      to_csv, ret, raise.
    repeat match goal with
           | H : Py.contains globals _ = true |- _ => rewrite H; clear H
           end.
    destruct (extract_bucket_and_prefix_from_gcs_path artifact_uri)
      as [gcs_bucket gcs_blob_prefix].
    now rewrite (upload_after_cleanup gcs_bucket _ (mkdtemp w) _
                   {| files := _ :: files w; blobs := blobs w |}).
Qed.

End WithEnvironment.

(** The call as the module stands, and the call with the missing names
    bound. *)
Example serialize_in_module :
  _serialize_dataframe module_globals string (fun text => text)
    example_mkdtemp example_extract
    "gs://my-bucket/staging" "a,b" "training" empty_world
  = (Raise (NameError "name 'pathlib' is not defined"), empty_world).
Proof. reflexivity. Qed.

Example serialize_with_names_bound :
  _serialize_dataframe (names_read ++ module_globals) string
    (fun text => text) example_mkdtemp example_extract
    "gs://my-bucket/staging" "a,b" "training" empty_world
  = (Raise (FileNotFoundError
              ("No such file or directory: " ++
               "'/tmp/tmpk3v9x0aq/my_training_dataset.csv'")),
     empty_world).
Proof. reflexivity. Qed.

End PandasSerializerFacts.

(** * Further properties *)

(** ** The container URI resolver *)

Module ContainerUriMoreFacts.

Import ContainerUri.

Lemma append_assoc (a b c : string) : (a ++ b) ++ c = a ++ (b ++ c).
Proof. induction a as [|x a IH]; simpl; [reflexivity|now rewrite IH]. Qed.

Section WithTable.

Variable URI_MAP : uri_map.
Variable docs : string.
Variable location : string.

Local Abbreviation resolve :=
  (get_prebuilt_prediction_container_uri URI_MAP docs location).

(** X1. The resolver returns a URI exactly when the normalized region, the
    lower-cased framework, the accelerator and the version are found level
    by level and the leaf is not empty; the URI returned is that leaf. *)
Theorem resolve_ok_iff_stored
    (framework version : string) (region : option string)
    (accelerator uri : string) :
  resolve framework version region accelerator = Ok uri
  <-> exists fm am vm,
        Py.get URI_MAP (normalize_region location region) = Some fm
        /\ Py.get fm (normalize_framework framework) = Some am
        /\ Py.get am accelerator = Some vm
        /\ Py.get vm version = Some uri
        /\ uri <> "".
Proof.
  unfold get_prebuilt_prediction_container_uri. split.
  - destruct (Py.get URI_MAP _) as [[|p fm]|]; try discriminate.
    destruct (Py.get (p :: fm) _) as [[|q am]|] eqn:Hf; try discriminate.
    destruct (Py.get (q :: am) accelerator) as [[|t vm]|] eqn:Ha;
      try discriminate.
    destruct (Py.get (t :: vm) version) as [[|c u]|] eqn:Hv;
      try discriminate.
    intros [= <-]. exists (p :: fm), (q :: am), (t :: vm).
    split; [reflexivity|]. split; [exact Hf|]. split; [exact Ha|].
    split; [exact Hv|discriminate].
  - intros (fm & am & vm & -> & Hf & Ha & Hv & Hu).
    destruct fm; [discriminate Hf|]. rewrite Hf.
    destruct am; [discriminate Ha|]. rewrite Ha.
    destruct vm; [discriminate Hv|]. rewrite Hv.
    destruct uri; [now elim Hu|reflexivity].
Qed.

(** X2. Every error of the resolver is a [ValueError] whose message ends
    with the pointer to the documentation of the supported containers. *)
Theorem resolve_error_points_to_docs
    (framework version : string) (region : option string)
    (accelerator : string) (e : exn) :
  resolve framework version region accelerator = Raise e ->
  exists text,
    e = ValueError (text ++ "See " ++ docs ++
                    " for complete list of supported containers").
Proof.
  unfold get_prebuilt_prediction_container_uri, region_error,
    framework_error, accelerator_error, version_error, DOCS_URI_MESSAGE.
  set (r := normalize_region location region).
  set (f := normalize_framework framework).
  destruct (Py.get URI_MAP r) as [[|p fm]|].
  1,3: intros [= <-];
       exists ("Unsupported container region `" ++ r ++
               "`, supported regions are " ++
               Py.join ", " (Py.keys URI_MAP) ++ ". ");
       now rewrite !append_assoc.
  destruct (Py.get (p :: fm) f) as [[|q am]|].
  1,3: intros [= <-];
       exists ("No containers found for framework `" ++ f ++
               "`. Supported frameworks are " ++
               Py.join ", " (Py.keys (p :: fm)) ++ " ");
       now rewrite !append_assoc.
  destruct (Py.get (q :: am) accelerator) as [[|t vm]|].
  1,3: intros [= <-];
       exists (f ++ " containers do not support `" ++ accelerator ++
               "` accelerator. Supported accelerators " ++
               "are " ++ Py.join ", " (Py.keys (q :: am)) ++ ". ");
       now rewrite !append_assoc.
  destruct (Py.get (t :: vm) version) as [[|c u]|].
  2: discriminate.
  all: intros [= <-];
       exists ("No serving container for `" ++ f ++ "` version `" ++
               version ++ "` " ++
               "with accelerator `" ++ accelerator ++
               "` found. Supported versions " ++
               "include " ++ Py.join ", " (Py.keys (t :: vm)) ++ ". ");
       now rewrite !append_assoc.
Qed.

(** X3. Two non-empty regions with the same first hyphen-delimited
    segment, and two frameworks that differ only in the case of their
    letters, resolve alike; an empty region is an omitted region, and
    both stand for the ambient location. *)
Theorem resolve_region_and_case_insensitive
    (framework framework' version accelerator region region' : string) :
  region <> "" -> region' <> "" ->
  Py.split_first "-" region = Py.split_first "-" region' ->
  Py.lower framework = Py.lower framework' ->
  resolve framework version (Some region) accelerator
  = resolve framework' version (Some region') accelerator
  /\ resolve framework version (Some "") accelerator
     = resolve framework' version None accelerator
  /\ resolve framework version None accelerator
     = resolve framework' version (Some location) accelerator.
Proof.
  intros Hr Hr' Hseg Hlow.
  unfold get_prebuilt_prediction_container_uri, normalize_region,
    normalize_framework.
  rewrite (PyFacts.or_str_truthy region location Hr),
    (PyFacts.or_str_truthy region' location Hr'), Hseg, Hlow.
  repeat split.
  simpl. destruct location; reflexivity.
Qed.

End WithTable.

Lemma resolve_error_points_to_docs_witness :
  exists text,
    ValueError
      ("Unsupported container region `mars`, supported regions are " ++
       "us, europe. See " ++ example_docs_url ++
       " for complete list of supported containers")
    = ValueError (text ++ "See " ++ example_docs_url ++
                  " for complete list of supported containers").
Proof.
  apply (resolve_error_points_to_docs example_map example_docs_url
           "us-central1" "tensorflow" "2.6" (Some "mars-base1") "cpu").
  reflexivity.
Defined.

Lemma resolve_region_and_case_insensitive_witness :
  get_prebuilt_prediction_container_uri example_map example_docs_url
    "europe-west4" "TensorFlow" "2.6" (Some "us-east1") "gpu"
  = get_prebuilt_prediction_container_uri example_map example_docs_url
      "europe-west4" "tensorflow" "2.6" (Some "us-west2") "gpu".
Proof.
  apply (resolve_region_and_case_insensitive example_map example_docs_url
           "europe-west4" "TensorFlow" "tensorflow" "2.6" "gpu"
           "us-east1" "us-west2");
    solve [discriminate | reflexivity].
Defined.

End ContainerUriMoreFacts.

(** ** The dataset controller *)

Module DatasetsMoreFacts.

Import Datasets.
Import DatasetsImport.

Local Abbreviation create_request_for parent display_name
  metadata_schema_uri datasource request_metadata :=
  (CreateDataset parent
     {| name := "";
        display_name := display_name;
        metadata_schema_uri := metadata_schema_uri;
        metadata := dataset_metadata datasource |}
     request_metadata).

Local Abbreviation export_config_of output_dir :=
  {| gcs_destination := {| output_uri_prefix := output_dir |} |}.

Section WithAmbient.

Variable global_config : Config.
Variable _instantiate_client :
  option string -> option string -> DatasetServiceClient.

Local Abbreviation ambient_project project :=
  (or_else project (config_project global_config)).
Local Abbreviation ambient_location location :=
  (or_else location (config_location global_config)).
Local Abbreviation ambient_credentials credentials :=
  (or_else credentials (config_credentials global_config)).

(** X5. With a valid display name and a datasource built, a create request
    that the gateway refuses, or whose operation fails, makes [create]
    raise the gateway's error unchanged; nothing is fetched and nothing is
    imported. *)
Theorem create_propagates_create_failure (cls : DatasetClass)
    (display_name metadata_schema_uri : string)
    (gcs_source : option GcsArg) (bq_source import_schema_uri : option string)
    (data_item_labels : option (Py.dict string))
    (project location credentials : option string)
    (request_metadata : list (string * string)) (h : history)
    (datasource : Datasource) :
  validate_display_name display_name = Ok tt ->
  create_datasource metadata_schema_uri import_schema_uri gcs_source
    bq_source data_item_labels = Ok datasource ->
  let parent := common_location_path global_config project location in
  let sent := create_request_for parent display_name metadata_schema_uri
                datasource request_metadata in
  let answer := create_dataset (_instantiate_client location credentials) h
                  parent
                  {| name := "";
                     display_name := display_name;
                     metadata_schema_uri := metadata_schema_uri;
                     metadata := dataset_metadata datasource |}
                  request_metadata in
  let run := create global_config _instantiate_client cls display_name
               metadata_schema_uri gcs_source bq_source import_schema_uri
               data_item_labels project location credentials
               request_metadata true h in
  (forall e, answer = Raise e -> run = (Raise e, (h ++ [sent])%list))
  /\ (forall lro e,
         answer = Ok lro -> outcome lro = Raise e ->
         run = (Raise e,
                (h ++ [sent; OperationDone (operation_name lro)])%list)).
Proof.
  intros Hname Hds parent sent answer run.
  subst parent sent answer run.
  unfold create, _create_and_import, optional_sync, bind, lift.
  rewrite Hname, Hds.
  unfold _create_and_import_body, _create, bind, request, result_of.
  split.
  - now intros e ->.
  - intros lro e -> ->. now rewrite <- app_assoc.
Qed.

(** X6. When the datasource is importable and the dataset has been created
    and fetched, an import request that the gateway refuses, or whose
    operation fails, makes [create] raise the gateway's error unchanged.
    The history ends there: the dataset stays created, nothing is sent to
    undo it. *)
Theorem create_import_failure_leaves_dataset (cls : DatasetClass)
    (display_name metadata_schema_uri : string)
    (gcs_source : option GcsArg) (bq_source import_schema_uri : option string)
    (data_item_labels : option (Py.dict string))
    (project location credentials : option string)
    (request_metadata : list (string * string)) (h : history)
    (m : option string) (config : ImportDataConfig)
    (lro : Operation GcaDataset) (created gca : GcaDataset)
    (obj : Dataset) :
  validate_display_name display_name = Ok tt ->
  create_datasource metadata_schema_uri import_schema_uri gcs_source
    bq_source data_item_labels = Ok (DatasourceImportable m config) ->
  let parent := common_location_path global_config project location in
  let sent := create_request_for parent display_name metadata_schema_uri
                (DatasourceImportable m config) request_metadata in
  create_dataset (_instantiate_client location credentials) h parent
    {| name := "";
       display_name := display_name;
       metadata_schema_uri := metadata_schema_uri;
       metadata := m |}
    request_metadata = Ok lro ->
  outcome lro = Ok created ->
  let created_so_far :=
    (h ++ [sent; OperationDone (operation_name lro)])%list in
  fst (__init__ global_config _instantiate_client cls (name created)
         (ambient_project project) (ambient_location location)
         (ambient_credentials credentials) created_so_far) = Ok obj ->
  _gca_resource obj = Some gca ->
  let fetched := (created_so_far ++ [GetDataset (name created)])%list in
  let answer := Datasets.import_data (api_client obj) fetched (name gca)
                  [config] in
  let run := create global_config _instantiate_client cls display_name
               metadata_schema_uri gcs_source bq_source import_schema_uri
               data_item_labels project location credentials
               request_metadata true h in
  (forall e,
      answer = Raise e ->
      run = (Raise e, (fetched ++ [ImportData (name gca) [config]])%list))
  /\ (forall import_lro e,
         answer = Ok import_lro -> outcome import_lro = Raise e ->
         run = (Raise e,
                (fetched ++ [ImportData (name gca) [config];
                             OperationDone (operation_name import_lro)])
                  %list)).
Proof.
  intros Hname Hds parent sent Hlro Hout created_so_far Hobj Hgca fetched
    answer run.
  subst run answer fetched created_so_far sent parent.
  cbn [dataset_metadata] in *.
  unfold create, _create_and_import, optional_sync, bind, lift.
  rewrite Hname, Hds.
  unfold _create_and_import_body, _create, bind, request, result_of.
  cbn [dataset_metadata]. rewrite Hlro, Hout.
  rewrite <- !app_assoc. cbn [app].
  destruct (DatasetsFacts.init_events global_config _instantiate_client
              cls (name created) (ambient_project project)
              (ambient_location location) (ambient_credentials credentials)
              (h ++ [CreateDataset
                       (common_location_path global_config project location)
                       {| name := "";
                          display_name := display_name;
                          metadata_schema_uri := metadata_schema_uri;
                          metadata := m |} request_metadata;
                     OperationDone (operation_name lro)])%list)
    as (r & Hrun & _).
  rewrite Hrun in Hobj |- *. cbn [fst] in Hobj. subst r.
  unfold _import, resource_name, bind, request, ret. rewrite Hgca.
  rewrite <- !app_assoc. cbn [app].
  split.
  - now intros e ->.
  - intros import_lro e -> ->. now rewrite <- ?app_assoc.
Qed.

(** X7. [create] checks the class against the resource only after the
    dataset exists: when the fetched resource has a schema URI outside the
    non-empty set the class supports, the call raises the type-mismatch
    [ValueError] with the dataset created and fetched, and no import
    request sent. *)
Theorem create_type_mismatch_after_creation (cls : DatasetClass)
    (display_name metadata_schema_uri : string)
    (gcs_source : option GcsArg) (bq_source import_schema_uri : option string)
    (data_item_labels : option (Py.dict string))
    (project location credentials : option string)
    (request_metadata : list (string * string)) (h : history)
    (datasource : Datasource)
    (lro : Operation GcaDataset) (created gca : GcaDataset)
    (supported : list string) :
  validate_display_name display_name = Ok tt ->
  create_datasource metadata_schema_uri import_schema_uri gcs_source
    bq_source data_item_labels = Ok datasource ->
  let parent := common_location_path global_config project location in
  let sent := create_request_for parent display_name metadata_schema_uri
                datasource request_metadata in
  create_dataset (_instantiate_client location credentials) h parent
    {| name := "";
       display_name := display_name;
       metadata_schema_uri := metadata_schema_uri;
       metadata := dataset_metadata datasource |}
    request_metadata = Ok lro ->
  outcome lro = Ok created ->
  let created_so_far :=
    (h ++ [sent; OperationDone (operation_name lro)])%list in
  get_dataset
    (_instantiate_client (ambient_location (ambient_location location))
       (ambient_credentials (ambient_credentials credentials)))
    created_so_far (name created) = Ok gca ->
  _supported_metadata_schema_uris cls = Some supported ->
  supported <> [] ->
  ~ In (Datasets.metadata_schema_uri gca) supported ->
  create global_config _instantiate_client cls display_name
    metadata_schema_uri gcs_source bq_source import_schema_uri
    data_item_labels project location credentials request_metadata true h
  = (Raise (mismatch_error cls (name gca)),
     (created_so_far ++ [GetDataset (name created)])%list).
Proof.
  intros Hname Hds parent sent Hlro Hout created_so_far Hget Hsup Hne Hnot.
  subst created_so_far sent parent.
  unfold create, _create_and_import, optional_sync, bind, lift.
  rewrite Hname, Hds.
  unfold _create_and_import_body, _create, bind, request, result_of.
  rewrite Hlro, Hout.
  rewrite <- !app_assoc in *. cbn [app] in *.
  rewrite DatasetsFacts.init_run, Hget, Hsup.
  apply DatasetsFacts.contains_not_In in Hnot.
  destruct supported; [now elim Hne|]. rewrite Hnot.
  now rewrite <- !app_assoc.
Qed.

End WithAmbient.

Lemma create_propagates_create_failure_witness :
  create example_config failing_create_instantiate_client dataset_class
    "flowers" image_schema None None None None None None None [] true []
  = (Raise (RemoteError "403 permission denied"),
     [CreateDataset "projects/my-prj/locations/us-central1"
        {| name := ""; display_name := "flowers";
           metadata_schema_uri := image_schema; metadata := None |} [];
      OperationDone "operations/create-1"]).
Proof.
  exact (proj2 (create_propagates_create_failure example_config
                  failing_create_instantiate_client dataset_class
                  "flowers" image_schema None None None None None None None
                  [] [] (DatasourceNonImportable None)
                  eq_refl eq_refl)
           failed_create_operation (RemoteError "403 permission denied")
           eq_refl eq_refl).
Defined.

Lemma create_import_failure_leaves_dataset_witness :
  create example_config failing_import_instantiate_client dataset_class
    "flowers" image_schema (Some (GcsStr "gs://my-bucket/flowers.csv"))
    None (Some "gs://my-bucket/import_schema.yaml") None
    None None None [] true []
  = (Raise (RemoteError "400 malformed import file"),
     [CreateDataset "projects/my-prj/locations/us-central1"
        {| name := ""; display_name := "flowers";
           metadata_schema_uri := image_schema; metadata := None |} [];
      OperationDone "operations/create-1";
      GetDataset "projects/my-prj/locations/us-central1/datasets/1";
      ImportData "projects/my-prj/locations/us-central1/datasets/1"
        [import_config_of ["gs://my-bucket/flowers.csv"]];
      OperationDone "operations/import-1"]).
Proof.
  exact (proj2 (create_import_failure_leaves_dataset example_config
                  failing_import_instantiate_client dataset_class
                  "flowers" image_schema
                  (Some (GcsStr "gs://my-bucket/flowers.csv"))
                  None (Some "gs://my-bucket/import_schema.yaml") None
                  None None None [] []
                  None (import_config_of ["gs://my-bucket/flowers.csv"])
                  (create_operation example_resource)
                  example_resource example_resource failing_import_handle
                  eq_refl eq_refl eq_refl eq_refl eq_refl eq_refl)
           failed_import_operation
           (RemoteError "400 malformed import file") eq_refl eq_refl).
Defined.

Lemma create_type_mismatch_after_creation_witness :
  create example_config example_instantiate_client tabular_dataset_class
    "flowers" tabular_schema (Some (GcsStr "gs://my-bucket/flowers.csv"))
    None None None None None None [] true []
  = (Raise (ValueError
              ("TabularDataset class can not be used to retrieve " ++
               "dataset resource " ++
               "projects/my-prj/locations/us-central1/datasets/1" ++
               ", check the dataset type")),
     [CreateDataset "projects/my-prj/locations/us-central1"
        {| name := ""; display_name := "flowers";
           metadata_schema_uri := tabular_schema;
           metadata := Some "gs://my-bucket/flowers.csv" |} [];
      OperationDone "operations/create-1";
      GetDataset "projects/my-prj/locations/us-central1/datasets/1"]).
Proof.
  refine (create_type_mismatch_after_creation example_config
            example_instantiate_client tabular_dataset_class
            "flowers" tabular_schema
            (Some (GcsStr "gs://my-bucket/flowers.csv"))
            None None None None None None [] []
            (DatasourceNonImportable (Some "gs://my-bucket/flowers.csv"))
            (create_operation created_tabular) created_tabular
            example_resource [tabular_schema]
            eq_refl eq_refl eq_refl eq_refl eq_refl eq_refl _ _).
  - discriminate.
  - intros [E | []]. discriminate E.
Defined.

(** X8. On a resolved handle, [import_data] with [sync=True] builds the
    datasource from the cached schema URI of the handle and the arguments;
    when it is importable, the request accepted and the operation
    successful, the call sends that one import request for the handle's
    resource, waits for its operation and returns the handle it was
    called on. *)
Theorem import_data_returns_same_handle (self : Dataset)
    (gcs_source : GcsArg) (import_schema_uri : string)
    (data_item_labels : option (Py.dict string)) (h : history)
    (gca : GcaDataset) (m : option string) (config : ImportDataConfig)
    (lro : Operation unit) :
  _latest_future self = None ->
  _gca_resource self = Some gca ->
  create_datasource (Datasets.metadata_schema_uri gca)
    (Some import_schema_uri) (Some gcs_source) None data_item_labels
  = Ok (DatasourceImportable m config) ->
  Datasets.import_data (api_client self) h (name gca) [config] = Ok lro ->
  outcome lro = Ok tt ->
  import_data self gcs_source import_schema_uri data_item_labels true h
  = (Ok self,
     (h ++ [ImportData (name gca) [config];
            OperationDone (operation_name lro)])%list).
Proof.
  intros Hfut Hgca Hds Hrpc Hout.
  unfold import_data, optional_sync_self, import_data_body, wait, bind,
    lift, ret, metadata_schema_uri_of.
  rewrite Hfut. unfold ret. rewrite Hgca. unfold ret. rewrite Hds.
  unfold _import, resource_name, bind, request, result_of, ret.
  rewrite Hgca, Hrpc, Hout. now rewrite <- app_assoc.
Qed.

(** X9. On a resolved handle, [import_data] with [sync=True] raises what
    went wrong and sends nothing more: an error of datasource construction
    or a datasource without import configuration before any request, a
    refused request after that request alone, a failed operation after
    the request and the wait. *)
Theorem import_data_propagates_failures (self : Dataset)
    (gcs_source : GcsArg) (import_schema_uri : string)
    (data_item_labels : option (Py.dict string)) (h : history)
    (gca : GcaDataset) :
  _latest_future self = None ->
  _gca_resource self = Some gca ->
  let built := create_datasource (Datasets.metadata_schema_uri gca)
                 (Some import_schema_uri) (Some gcs_source) None
                 data_item_labels in
  let run := import_data self gcs_source import_schema_uri
               data_item_labels true h in
  (forall e, built = Raise e -> run = (Raise e, h))
  /\ (forall m, built = Ok (DatasourceNonImportable m) ->
      snd run = h /\ exists msg, fst run = Raise (AttributeError msg))
  /\ (forall m config e,
         built = Ok (DatasourceImportable m config) ->
         Datasets.import_data (api_client self) h (name gca) [config]
         = Raise e ->
         run = (Raise e, (h ++ [ImportData (name gca) [config]])%list))
  /\ (forall m config lro e,
         built = Ok (DatasourceImportable m config) ->
         Datasets.import_data (api_client self) h (name gca) [config]
         = Ok lro ->
         outcome lro = Raise e ->
         run = (Raise e,
                (h ++ [ImportData (name gca) [config];
                       OperationDone (operation_name lro)])%list)).
Proof.
  intros Hfut Hgca built run. subst built run.
  unfold import_data, optional_sync_self, import_data_body, wait, bind,
    lift, ret, metadata_schema_uri_of.
  rewrite Hfut. unfold ret. rewrite Hgca. unfold ret.
  split; [|split; [|split]].
  - now intros e ->.
  - intros m ->. unfold resource_name, bind, raise, ret. rewrite Hgca.
    unfold ret. split; [reflexivity|]. now eexists.
  - intros m config e -> Hrpc.
    unfold _import, resource_name, bind, request, ret.
    now rewrite Hgca, Hrpc.
  - intros m config lro e -> Hrpc Hout.
    unfold _import, resource_name, bind, request, result_of, ret.
    rewrite Hgca, Hrpc, Hout. now rewrite <- app_assoc.
Qed.

(** X10. On a resolved handle the gateway decides what [export_data]
    yields: a refused request or a failed operation is raised unchanged,
    and the files of the response are returned when the operation
    succeeds; the request and then the wait for its operation are all the
    call adds to the history. *)
Theorem export_data_propagates_failures (self : Dataset)
    (output_dir : string) (h : history) (gca : GcaDataset) :
  _latest_future self = None ->
  _gca_resource self = Some gca ->
  let sent := ExportData (name gca) (export_config_of output_dir) in
  let answer := export_data_rpc (api_client self) h (name gca)
                  (export_config_of output_dir) in
  let run := export_data self output_dir h in
  (forall e, answer = Raise e -> run = (Raise e, (h ++ [sent])%list))
  /\ (forall lro e,
         answer = Ok lro -> outcome lro = Raise e ->
         run = (Raise e,
                (h ++ [sent; OperationDone (operation_name lro)])%list))
  /\ (forall lro response,
         answer = Ok lro -> outcome lro = Ok response ->
         run = (Ok (exported_files response),
                (h ++ [sent; OperationDone (operation_name lro)])%list)).
Proof.
  intros Hfut Hgca sent answer run. subst sent answer run.
  rewrite DatasetsFacts.export_data_run. unfold wait. rewrite Hfut.
  unfold ret. rewrite Hgca.
  split; [|split].
  - now intros e ->.
  - now intros lro e -> ->.
  - now intros lro response -> ->.
Qed.

Lemma import_data_returns_same_handle_witness :
  import_data example_handle (GcsSeq ["gs://my-bucket/a.jsonl";
                                      "gs://my-bucket/b.jsonl"])
    "gs://my-bucket/import_schema.yaml" None true []
  = (Ok example_handle,
     [ImportData (name example_resource)
        [import_config_of ["gs://my-bucket/a.jsonl";
                           "gs://my-bucket/b.jsonl"]];
      OperationDone "operations/import-1"]).
Proof.
  exact (import_data_returns_same_handle example_handle
           (GcsSeq ["gs://my-bucket/a.jsonl"; "gs://my-bucket/b.jsonl"])
           "gs://my-bucket/import_schema.yaml" None [] example_resource
           None
           (import_config_of ["gs://my-bucket/a.jsonl";
                              "gs://my-bucket/b.jsonl"])
           import_operation eq_refl eq_refl eq_refl eq_refl eq_refl).
Defined.

Lemma import_data_propagates_failures_witness :
  (import_data example_handle (GcsStr "")
     "gs://my-bucket/import_schema.yaml" None true []
   = (Raise (ValueError "One of gcs_source or bq_source must be set."),
      []))
  /\ import_data failing_import_handle
       (GcsStr "gs://my-bucket/flowers.csv")
       "gs://my-bucket/import_schema.yaml" None true []
     = (Raise (RemoteError "400 malformed import file"),
        [ImportData (name example_resource)
           [import_config_of ["gs://my-bucket/flowers.csv"]];
         OperationDone "operations/import-1"]).
Proof.
  split.
  - exact (proj1 (import_data_propagates_failures example_handle
                    (GcsStr "") "gs://my-bucket/import_schema.yaml" None
                    [] example_resource eq_refl eq_refl)
             (ValueError "One of gcs_source or bq_source must be set.")
             eq_refl).
  - exact (proj2 (proj2 (proj2
             (import_data_propagates_failures failing_import_handle
                (GcsStr "gs://my-bucket/flowers.csv")
                "gs://my-bucket/import_schema.yaml" None
                [] example_resource eq_refl eq_refl)))
             None (import_config_of ["gs://my-bucket/flowers.csv"])
             failed_import_operation
             (RemoteError "400 malformed import file")
             eq_refl eq_refl eq_refl).
Defined.

Lemma export_data_propagates_failures_witness :
  export_data orphan_handle "gs://my-bucket/exports/" []
  = (Raise (RemoteError "404 dataset not found"),
     [ExportData (name example_resource)
        (export_config_of "gs://my-bucket/exports/")])
  /\ export_data example_handle "gs://my-bucket/exports/" []
     = (Ok ["gs://my-bucket/exports/export-data-flowers/data.jsonl"],
        [ExportData (name example_resource)
           (export_config_of "gs://my-bucket/exports/");
         OperationDone "operations/export-1"]).
Proof.
  split.
  - exact (proj1 (export_data_propagates_failures orphan_handle
                    "gs://my-bucket/exports/" [] example_resource
                    eq_refl eq_refl)
             (RemoteError "404 dataset not found") eq_refl).
  - exact (proj2 (proj2 (export_data_propagates_failures example_handle
                           "gs://my-bucket/exports/" [] example_resource
                           eq_refl eq_refl))
             {| operation_name := "operations/export-1";
                outcome :=
                  Ok {| exported_files :=
                          ["gs://my-bucket/exports/export-data-flowers/data.jsonl"] |} |}
             {| exported_files :=
                  ["gs://my-bucket/exports/export-data-flowers/data.jsonl"] |}
             eq_refl eq_refl).
Defined.

End DatasetsMoreFacts.

(** ** The dataframe serializer and deserializer *)

Module PandasMoreFacts.

Import PandasSerializer.

Lemma In_filter_In {A} (p : A -> bool) (x : A) (l : list A) :
  In x (filter p l) -> In x l.
Proof. intro H. now apply filter_In in H. Qed.

Lemma filter_drops_under (d path text : string) (l : Py.dict string) :
  Py.startswith (d ++ "/") path = true ->
  filter (fun f => negb (Py.startswith (d ++ "/") (fst f)))
    ((path, text) :: l)
  = filter (fun f => negb (Py.startswith (d ++ "/") (fst f))) l.
Proof. intro H. cbn [filter fst]. now rewrite H. Qed.

Section WithSerializer.

Variable DataFrame : Type.
Variable csv_text : DataFrame -> string.
Variable mkdtemp : world -> string.
Variable extract_bucket_and_prefix_from_gcs_path :
  string -> string * option string.

Local Abbreviation serialize globals :=
  (_serialize_dataframe globals DataFrame csv_text mkdtemp
     extract_bucket_and_prefix_from_gcs_path).

Local Abbreviation outside d :=
  (fun f : string * string => negb (Py.startswith (d ++ "/") (fst f))).

(** X11. Whatever names are bound, a call of [_serialize_dataframe] leaves
    the local files as they were, or as they were less what lay under the
    temporary directory: the CSV file it writes never outlives the call,
    and no other file appears. *)
Theorem serialize_leaves_no_file (globals : list string)
    (artifact_uri : string) (obj : DataFrame) (dataset_type : string)
    (w : world) :
  let final := snd (serialize globals artifact_uri obj dataset_type w) in
  (files final = files w
   \/ files final = filter (outside (mkdtemp w)) (files w))
  /\ (forall f, In f (files final) -> In f (files w))
  /\ (Py.contains globals "tempfile" = true ->
      Py.get (files final)
        (path_join (mkdtemp w) ("my_" ++ dataset_type ++ "_dataset.csv"))
      = None).
Proof.
  intro final.
  assert (Hcases :
            (Py.contains globals "tempfile" = false /\ files final = files w)
            \/ files final = filter (outside (mkdtemp w)) (files w)).
  { subst final.
    unfold _serialize_dataframe, bind, global, with_TemporaryDirectory,
      to_csv, ret, raise.
    destruct (Py.contains globals "tempfile"); [right|left; now split].
    destruct (Py.contains globals "pathlib"); [|reflexivity].
    cbn [files blobs fst snd].
    rewrite (filter_drops_under _ _ _ _
               (PandasSerializerFacts.prefix_of_join (mkdtemp w) _)).
    destruct (Py.contains globals
                "extract_bucket_and_prefix_from_gcs_path"); [|reflexivity].
    destruct (extract_bucket_and_prefix_from_gcs_path artifact_uri)
      as [gcs_bucket gcs_blob_prefix].
    destruct (Py.contains globals "storage"); [|reflexivity].
    destruct (Py.contains globals "initializer"); [|reflexivity].
    unfold upload_from_filename. cbn [files blobs].
    rewrite (PandasSerializerFacts.get_after_cleanup _ _ _
               (PandasSerializerFacts.prefix_of_join (mkdtemp w) _)).
    reflexivity. }
  split; [|split].
  - destruct Hcases as [[_ H] | H]; [now left|now right].
  - intros f Hf. destruct Hcases as [[_ H] | H]; rewrite H in Hf;
      [exact Hf|exact (In_filter_In _ _ _ Hf)].
  - intro Hbound. destruct Hcases as [[H _] | H]; [congruence|].
    rewrite H.
    apply PandasSerializerFacts.get_after_cleanup,
      PandasSerializerFacts.prefix_of_join.
Qed.

End WithSerializer.

End PandasMoreFacts.

Module PandasDeserializerFacts.

Import PandasSerializer.
Import PandasDeserializer.

Section WithDeserializer.

Variable DataFrame : Type.
Variable empty_frame : DataFrame.
Variable read_csv : string -> res DataFrame.
Variable mkdtemp : world -> string.
Variable extract_bucket_and_prefix_from_gcs_path :
  string -> string * option string.

Local Abbreviation deserialize globals :=
  (_deserialize_dataframe globals DataFrame empty_frame read_csv mkdtemp
     extract_bucket_and_prefix_from_gcs_path).

Local Abbreviation outside d :=
  (fun f : string * string => negb (Py.startswith (d ++ "/") (fst f))).

(** X12. In the module as written every call of [_deserialize_dataframe]
    raises the [NameError] for [storage], the first unbound name it
    reads, and touches neither the local files nor object storage. *)
Theorem deserialize_in_module_raises_name_error (artifact_uri : string)
    (w : world) :
  deserialize module_globals artifact_uri w
  = (Throw (Builtin (NameError "name 'storage' is not defined")), w).
Proof.
  unfold _deserialize_dataframe, and_then, global.
  cbn [Py.contains existsb module_globals].
  change (Py.contains module_globals "utils") with true.
  cbv iota. unfold unit_io.
  destruct (extract_bucket_and_prefix_from_gcs_path artifact_uri).
  reflexivity.
Qed.

(** What the call leaves of a world: the files outside the temporary
    directory, and the blobs. *)
Local Abbreviation cleaned w :=
  {| files := filter (outside (mkdtemp w)) (files w); blobs := blobs w |}.

Local Abbreviation stored_at w bucket blob :=
  (match blob with
   | Some n => blob_get (blobs w) bucket n
   | None => None
   end).

Lemma read_after_download (d name text : string) (l : Py.dict string) :
  Py.get ((path_join d name, text) :: l) (path_join d name) = Some text.
Proof. cbn [Py.get]. now rewrite String.eqb_refl. Qed.

(** The [try] body with its names bound: download, read, clean up. *)
Lemma try_body_run (globals : list string) (bucket : string)
    (blob : option string) (w : world) :
  Py.contains globals "tempfile" = true ->
  Py.contains globals "pathlib" = true ->
  Py.contains globals "pd" = true ->
  and_then (global globals "tempfile")
    (fun _ =>
       with_TemporaryDirectory mkdtemp (fun tmpdirname =>
         and_then (global globals "pathlib") (fun _ =>
         and_then (download_to_filename bucket blob
                     (path_join tmpdirname "deserialized_data.csv"))
           (fun _ =>
         and_then (global globals "pd") (fun _ =>
         and_then (read_csv_file DataFrame read_csv
                     (path_join tmpdirname "deserialized_data.csv"))
           (fun df => unit_io df)))))) w
  = (match stored_at w bucket blob with
     | Some text => read_csv text
     | None => Throw (Builtin (RemoteError "404 No such object"))
     end, cleaned w).
Proof.
  intros Ht Hp Hd.
  unfold and_then, global, with_TemporaryDirectory, download_to_filename,
    read_csv_file, unit_io.
  rewrite Ht, Hp.
  destruct (stored_at w bucket blob) as [text|]; [|reflexivity].
  rewrite Hd. cbn [files blobs]. rewrite read_after_download.
  destruct (read_csv text); cbn [files blobs];
    now rewrite (PandasMoreFacts.filter_drops_under _ _ _ _
                   (PandasSerializerFacts.prefix_of_join (mkdtemp w) _)).
Qed.

(** X13. With every name it reads bound, [_deserialize_dataframe] returns
    what [read_csv] makes of the text of the blob; a [ValueError] or
    [RuntimeError] of the reader comes out as a [RuntimeError] that quotes
    the URI and the message, any other error of the reader and a blob the
    gateway does not have come out unchanged. In every case the temporary
    file is gone and the blobs are as before. *)
Theorem deserialize_with_names_bound (globals : list string)
    (artifact_uri bucket : string) (blob : option string) (w : world) :
  forallb (Py.contains globals) names_read = true ->
  extract_bucket_and_prefix_from_gcs_path artifact_uri = (bucket, blob) ->
  let run := deserialize globals artifact_uri w in
  (stored_at w bucket blob = None ->
   exists msg, run = (Throw (Builtin (RemoteError msg)), cleaned w))
  /\ (forall text df,
         stored_at w bucket blob = Some text -> read_csv text = Return df ->
         run = (Return df, cleaned w))
  /\ (forall text e,
         stored_at w bucket blob = Some text -> read_csv text = Throw e ->
         is_ValueError_or_RuntimeError e = true ->
         run = (Throw (RuntimeError
                         ("There was a problem reading the CSV file at '" ++
                          artifact_uri ++ "': " ++ str_of e)),
                cleaned w))
  /\ (forall text e,
         stored_at w bucket blob = Some text -> read_csv text = Throw e ->
         is_ValueError_or_RuntimeError e = false ->
         run = (Throw e, cleaned w)).
Proof.
  intros Hall Hextract run.
  assert (Hrun :
            run
            = (match stored_at w bucket blob with
               | Some text =>
                   match read_csv text with
                   | Return df => Return df
                   | Throw e =>
                       if is_ValueError_or_RuntimeError e then
                         Throw (RuntimeError
                                  ("There was a problem reading the CSV " ++
                                   "file at '" ++ artifact_uri ++ "': " ++
                                   str_of e))
                       else Throw e
                   end
               | None => Throw (Builtin (RemoteError "404 No such object"))
               end, cleaned w)).
  { subst run. cbn in Hall.
    repeat (apply andb_prop in Hall as [? Hall]).
    unfold _deserialize_dataframe.
    unfold and_then at 1. unfold global at 1.
    match goal with H : Py.contains globals "utils" = true |- _ =>
      rewrite H end.
    unfold unit_io at 1. rewrite Hextract.
    unfold and_then at 1 2 3 4. unfold global at 1 2 3 4.
    repeat match goal with
           | H : Py.contains globals "storage" = true |- _ =>
               rewrite H; clear H
           | H : Py.contains globals "initializer" = true |- _ =>
               rewrite H; clear H
           | H : Py.contains globals "pandas" = true |- _ =>
               rewrite H; clear H
           end.
    unfold unit_io at 1 2 3 4. unfold try_except_finally.
    rewrite try_body_run by assumption.
    unfold and_then, global, unit_io, throw.
    repeat match goal with
           | H : Py.contains globals _ = true |- _ => rewrite H; clear H
           end.
    destruct (stored_at w bucket blob) as [text|]; [|reflexivity].
    destruct (read_csv text) as [df|e]; [reflexivity|].
    now destruct (is_ValueError_or_RuntimeError e). }
  rewrite Hrun. split; [|split; [|split]].
  - intros ->. now eexists.
  - now intros text df -> ->.
  - now intros text e -> -> ->.
  - now intros text e -> -> ->.
Qed.

(** The [try] body under any namespace: it leaves the world as it was,
    or less the temporary directory, and returns only with its three
    names bound. *)
Lemma try_body_any (globals : list string) (bucket : string)
    (blob : option string) (w : world) (r : res DataFrame) (w' : world) :
  and_then (global globals "tempfile")
    (fun _ =>
       with_TemporaryDirectory mkdtemp (fun tmpdirname =>
         and_then (global globals "pathlib") (fun _ =>
         and_then (download_to_filename bucket blob
                     (path_join tmpdirname "deserialized_data.csv"))
           (fun _ =>
         and_then (global globals "pd") (fun _ =>
         and_then (read_csv_file DataFrame read_csv
                     (path_join tmpdirname "deserialized_data.csv"))
           (fun df => unit_io df)))))) w
  = (r, w') ->
  (w' = w \/ w' = cleaned w)
  /\ (forall df, r = Return df ->
      Py.contains globals "tempfile" = true
      /\ Py.contains globals "pathlib" = true
      /\ Py.contains globals "pd" = true).
Proof.
  unfold and_then, global, with_TemporaryDirectory, download_to_filename,
    read_csv_file, unit_io, throw.
  destruct (Py.contains globals "tempfile").
  2:{ intros [= <- <-]. split; [now left|discriminate]. }
  destruct (Py.contains globals "pathlib").
  2:{ intros [= <- <-]. split; [now right|discriminate]. }
  destruct (stored_at w bucket blob) as [text|].
  2:{ intros [= <- <-]. split; [now right|discriminate]. }
  destruct (Py.contains globals "pd").
  2:{ intros [= <- <-]. split; [right|discriminate].
      cbn [files blobs filter fst].
      now rewrite PandasSerializerFacts.prefix_of_join. }
  cbn [files blobs]. rewrite read_after_download.
  destruct (read_csv text) as [df|e]; intros [= <- <-];
    (split; [right; cbn [files blobs filter fst];
             now rewrite PandasSerializerFacts.prefix_of_join|]);
    [now intros ? _|discriminate].
Qed.

(** X14. Whatever names are bound, [_deserialize_dataframe] never changes
    a blob and never leaves a file behind; it returns a frame only when
    all nine names it reads are bound. With the names before the [try]
    bound and [logger] unbound, the [finally] clause decides: the call
    raises the [NameError] for [logger], whatever the [try] did. *)
Theorem deserialize_never_alters_storage (globals : list string)
    (artifact_uri : string) (w : world) :
  let run := deserialize globals artifact_uri w in
  blobs (snd run) = blobs w
  /\ (forall f, In f (files (snd run)) -> In f (files w))
  /\ (forall df, fst run = Return df ->
      forallb (Py.contains globals) names_read = true)
  /\ (forallb (Py.contains globals)
        ["utils"; "storage"; "initializer"; "pandas"] = true ->
      Py.contains globals "logger" = false ->
      fst run = Throw (Builtin (NameError "name 'logger' is not defined"))).
Proof.
  intro run. subst run.
  destruct (deserialize globals artifact_uri w) as [r wf] eqn:Hrun.
  cbn [fst snd]. revert Hrun.
  unfold _deserialize_dataframe.
  unfold and_then at 1. unfold global at 1.
  destruct (Py.contains globals "utils") eqn:Hutils.
  2:{ unfold throw. intros [= <- <-].
      repeat split; try discriminate; auto.
      cbn. rewrite Hutils. discriminate. }
  unfold unit_io at 1.
  destruct (extract_bucket_and_prefix_from_gcs_path artifact_uri)
    as [bucket blob].
  unfold and_then at 1. unfold global at 1.
  destruct (Py.contains globals "storage") eqn:Hstorage.
  2:{ unfold throw. intros [= <- <-].
      repeat split; try discriminate; auto.
      cbn. rewrite Hutils, Hstorage. discriminate. }
  unfold unit_io at 1.
  unfold and_then at 1 2. unfold global at 1 2.
  destruct (Py.contains globals "initializer") eqn:Hinit.
  2:{ unfold throw. intros [= <- <-].
      repeat split; try discriminate; auto.
      cbn. rewrite Hutils, Hstorage, Hinit. discriminate. }
  unfold unit_io at 1 2.
  unfold and_then at 1. unfold global at 1.
  destruct (Py.contains globals "pandas") eqn:Hpandas.
  2:{ unfold throw. intros [= <- <-].
      repeat split; try discriminate; auto.
      cbn. rewrite Hutils, Hstorage, Hinit, Hpandas. discriminate. }
  unfold unit_io at 1. unfold try_except_finally.
  match goal with
  | |- context [match ?body w with _ => _ end] =>
      destruct (body w) as [rb wb] eqn:Hbody
  end.
  destruct (try_body_any globals bucket blob w rb wb Hbody)
    as [Hworld Hnames].
  assert (Hblobs : blobs wb = blobs w)
    by (destruct Hworld as [-> | ->]; reflexivity).
  assert (Hfiles : forall f, In f (files wb) -> In f (files w)).
  { destruct Hworld as [-> | ->]; [auto|].
    intros f Hf. exact (PandasMoreFacts.In_filter_In _ _ _ Hf). }
  assert (Hhandled :
            forall (rh : res DataFrame) (wh : world),
              match rb with
              | Throw e =>
                  if is_ValueError_or_RuntimeError e
                  then throw (RuntimeError
                                ("There was a problem reading the CSV " ++
                                 "file at '" ++ artifact_uri ++ "': " ++
                                 str_of e)) wb
                  else (Throw e, wb)
              | Return a => (Return a, wb)
              end = (rh, wh) ->
              wh = wb /\ (forall df, rh = Return df -> rb = Return df)).
  { intros rh wh. unfold throw.
    destruct rb as [a|e]; [|destruct (is_ValueError_or_RuntimeError e)];
      intros [= <- <-]; split; auto; discriminate. }
  match goal with
  | |- context [let (_, _) := ?handled in _] =>
      destruct handled as [rh wh] eqn:Hh
  end.
  destruct (Hhandled rh wh Hh) as [-> Hret].
  unfold and_then, global, unit_io, throw.
  destruct (Py.contains globals "logger") eqn:Hlogger.
  2:{ intros [= <- <-]. repeat split; try discriminate; auto. }
  destruct (Py.contains globals "logging_warning_filter") eqn:Hfilter.
  2:{ intros [= <- <-]. repeat split; try discriminate; auto. }
  intros [= <- <-]. repeat split; try discriminate; auto.
  intros df Hdf. destruct (Hnames df (Hret df Hdf)) as (Ht & Hp & Hd).
  cbn. now rewrite Hutils, Hstorage, Hinit, Hpandas, Ht, Hp, Hd, Hlogger,
    Hfilter.
Qed.

End WithDeserializer.

(** The call with every name bound, on a world that holds the blob. *)
Example deserialize_example :
  _deserialize_dataframe (PandasDeserializer.names_read ++ module_globals)
    string "" example_read_csv example_mkdtemp example_extract
    "gs://my-bucket/staging" example_world
  = (Return "a,b", example_world).
Proof. reflexivity. Qed.

Lemma deserialize_with_names_bound_witness :
  _deserialize_dataframe (PandasDeserializer.names_read ++ module_globals)
    string "" example_read_csv example_mkdtemp example_extract
    "gs://my-bucket/staging" example_world
  = (Return "a,b",
     {| files := filter (fun f => negb (Py.startswith
                                          (example_mkdtemp example_world
                                           ++ "/") (fst f)))
                   (files example_world);
        blobs := blobs example_world |}).
Proof.
  exact (proj1 (proj2 (deserialize_with_names_bound string ""
                         example_read_csv example_mkdtemp example_extract
                         (PandasDeserializer.names_read ++ module_globals)
                         "gs://my-bucket/staging" "my-bucket"
                         (Some "staging") example_world eq_refl eq_refl))
           "a,b" "a,b" eq_refl eq_refl).
Defined.

End PandasDeserializerFacts.
